(** * pdf-outliner: the bookmark builder of [pdf_outliner/core.py]

    A shallow embedding of [Heading], [DocumentOutline] and of the methods
    [analyze_pdf_with_llm] (text preparation and validation) and
    [add_bookmarks_to_pdf] (the loop over the headings) of [PDFOutliner],
    followed by the properties of the outline they build.

    Python integers are unbounded: they are [Z].  A Python [str] is a
    [string], one [ascii] standing for one character.  Python lists are
    lists with index 0 at the head, so the top of [parent_stack] is the
    last element. *)

From Stdlib Require Import ZArith String Ascii DecimalString List Lia ZifyBool.
From stdpp Require Import base tactics option list.

Local Open Scope Z_scope.

(** ** Exceptions and results *)

Inductive exn : Type :=
| IndexError
| ValidationError
| RuntimeError.

(** The outcome of running a piece of code: a value, a raised exception,
    or [Timeout] when a loop of the model was not given enough iterations. *)
Inductive result (A : Type) : Type :=
| Ok (a : A)
| Raise (e : exn)
| Timeout.
Arguments Ok {A} a.
Arguments Raise {A} e.
Arguments Timeout {A}.

(** ** Data model *)

(** [class Heading(BaseModel)] *)
Record Heading : Type := mkHeading {
  title : string;
  level : Z;
  page : Z;
}.

(** [class DocumentOutline(BaseModel)] *)
Record DocumentOutline : Type := mkDocumentOutline {
  headings : list Heading;
}.

(** The constraints pydantic enforces when a [Heading] is built:
    [title: str = Field(...)] (required, no length constraint),
    [level: int = Field(..., ge=1, le=6)], [page: int = Field(..., ge=1)]. *)
Definition Heading_validate (h : Heading) : bool :=
  (1 <=? level h) && (level h <=? 6) && (1 <=? page h).

(** Building a [DocumentOutline] from the parsed response: every element
    of ["headings"] is validated as a [Heading]; one failure fails the
    construction of the whole outline. *)
Definition DocumentOutline_validate (data : list Heading) : result DocumentOutline :=
  if forallb Heading_validate data
  then Ok (mkDocumentOutline data)
  else Raise ValidationError.

(** The end of the [try] block of [analyze_pdf_with_llm]:
    the outline is built, validated and returned, with
    [except Exception as e: raise RuntimeError(...)]. *)
Definition analyze_validate (data : list Heading) : result DocumentOutline :=
  match DocumentOutline_validate data with
  | Ok outline => Ok outline
  | Raise _ => Raise RuntimeError
  | Timeout => Timeout
  end.

(** ** Text helpers *)

(** [str(n)] for an integer. *)
Definition str_of_int (n : Z) : string :=
  NilZero.string_of_int (Z.to_int n).

(** [len(s)] *)
Definition len_str (s : string) : Z := Z.of_nat (String.length s).

(** [s[:n]] for a non-negative [n]. *)
Definition str_take (n : Z) (s : string) : string :=
  String.substring 0 (Z.to_nat n) s.

(** One entry of the list returned by [extract_text_with_pages]:
    [{"page": page_num, "text": text}]. *)
Record PageData : Type := mkPageData {
  pd_page : Z;
  pd_text : string;
}.

(** The [for page_data in pages] loop of [analyze_pdf_with_llm]:
    [document_text += f"\n--- PAGE {page_data['page']} ---\n"] and
    [document_text += page_data["text"]]. *)
Definition LF : string := String (ascii_of_nat 10) EmptyString.

Fixpoint concat_pages (document_text : string) (pages : list PageData) : string :=
  match pages with
  | [] => document_text
  | page_data :: rest =>
      let document_text :=
        (document_text ++ LF ++ "--- PAGE " ++ str_of_int (pd_page page_data)
           ++ " ---" ++ LF)%string in
      let document_text := (document_text ++ pd_text page_data)%string in
      concat_pages document_text rest
  end.

Definition max_chars : Z := 50000.

Definition truncation_marker : string :=
  (LF ++ LF ++ "[Document truncated...]")%string.

(** [if len(document_text) > max_chars:
       document_text = document_text[:max_chars] + "\n\n[Document truncated...]"] *)
Definition truncate_text (document_text : string) : string :=
  if len_str document_text >? max_chars
  then (str_take max_chars document_text ++ truncation_marker)%string
  else document_text.

(** The text that goes into the user prompt. *)
Definition prepare_document_text (pages : list PageData) : string :=
  truncate_text (concat_pages EmptyString pages).

(** [analyze_pdf_with_llm].  The call to the model and the parsing of its
    answer ([litellm.completion], [json.loads]) are outside the program:
    [completion] stands for them, from the document text in the prompt to
    the parsed headings or to the exception they raise, which the
    [except] clause turns into a [RuntimeError]. *)
Definition analyze_pdf_with_llm (completion : string -> result (list Heading))
    (pages : list PageData) : result DocumentOutline :=
  let document_text := prepare_document_text pages in
  match completion document_text with
  | Ok data => analyze_validate data
  | Raise _ => Raise RuntimeError
  | Timeout => Timeout
  end.

(** ** Python list operations used on [parent_stack] *)

Section PyList.
Context {A : Type}.

(** [len(l)] *)
Definition len (l : list A) : Z := Z.of_nat (length l).

(** [l.pop()]: removes the last element, [IndexError] on an empty list. *)
Definition py_pop (l : list A) : result (list A) :=
  match l with
  | [] => Raise IndexError
  | _ :: _ => Ok (removelast l)
  end.

(** The index Python resolves [l[i]] to: negative indices count from the
    end; out of range is an [IndexError]. *)
Definition py_index (l : list A) (i : Z) : result nat :=
  let i' := if i <? 0 then i + len l else i in
  if (i' <? 0) || (len l <=? i') then Raise IndexError
  else Ok (Z.to_nat i').

(** [l[i]] *)
Definition py_getitem (l : list A) (i : Z) : result A :=
  match py_index l i with
  | Ok n => match l !! n with Some x => Ok x | None => Raise IndexError end
  | Raise e => Raise e
  | Timeout => Timeout
  end.

(** [l[i] = x] *)
Definition py_setitem (l : list A) (i : Z) (x : A) : result (list A) :=
  match py_index l i with
  | Ok n => Ok (<[n := x]> l)
  | Raise e => Raise e
  | Timeout => Timeout
  end.
End PyList.

(** ** Sample inputs *)

Module Samples.
Local Open Scope string_scope.

Definition hA : Heading := mkHeading "A" 1 1.
Definition hB : Heading := mkHeading "B" 3 1.
Definition hC : Heading := mkHeading "C" 2 9.

(** Levels 1, 3, 2: the second heading skips a level; the third one is
    on a page the two-page document does not have. *)
Definition skip_outline : DocumentOutline := mkDocumentOutline [hA; hB; hC].

Definition two_pages : list string := ["first page"; "second page"].

(** Levels 1, 2, 3, 2, 1 on the pages of a five-page document. *)
Definition nested_outline : DocumentOutline :=
  mkDocumentOutline
    [mkHeading "Intro" 1 1; mkHeading "Background" 2 1;
     mkHeading "Details" 3 2; mkHeading "Method" 2 3;
     mkHeading "Results" 1 5].

Definition five_pages : list string := ["1"; "2"; "3"; "4"; "5"].

(** A page of 65536 characters, more than the budget of the prompt. *)
Fixpoint doubled (n : nat) (s : string) : string :=
  match n with
  | O => s
  | S n => doubled n (s ++ s)
  end.

Definition long_pages : list PageData := [mkPageData 1 (doubled 16 "x")].
Definition short_pages : list PageData :=
  [mkPageData 1 "hello"; mkPageData 2 "world"].

(** Headings that the constraints of [Heading] are tried on. *)
Definition h_deep : Heading := mkHeading "Deep" 7 1.
Definition h_zero : Heading := mkHeading "Zero" 0 1.
Definition h_zero_as_one : Heading := mkHeading "Zero" 1 1.
Definition h_negative : Heading := mkHeading "Negative" (-1) 1.
Definition h_untitled : Heading := mkHeading "" 1 1.

(** Another document with two pages, and an error stream already in use. *)
Definition other_pages : list string := ["page one"; ""].
Definition old_errors : list string := ["an earlier line"].
End Samples.

(** ** The document and its writer *)

(** A page of the document, stood for by the text [extract_text] gives. *)
Definition Page : Type := string.

(** [extract_text_with_pages]:
    [for page_num, page in enumerate(reader.pages, start=1)]. *)
Fixpoint enumerate_pages (page_num : Z) (reader_pages : list Page) : list PageData :=
  match reader_pages with
  | [] => []
  | p :: rest => mkPageData page_num p :: enumerate_pages (page_num + 1) rest
  end.

Definition extract_text_with_pages (reader_pages : list Page) : list PageData :=
  enumerate_pages 1 reader_pages.

(** An entry of the writer's outline.  A reference to an entry is its
    position in creation order; [item_parent] is [None] for an entry at
    the top of the outline. *)
Record OutlineItem : Type := mkOutlineItem {
  item_title : string;
  item_page : Z;
  item_parent : option nat;
}.

Record PdfWriter : Type := mkPdfWriter {
  writer_pages : list Page;
  writer_outline : list OutlineItem;
}.

(** What the builder acts on: the writer and the error stream. *)
Record World : Type := mkWorld {
  writer : PdfWriter;
  stderr : list string;
}.

(** ** A state and exception monad

    An exception leaves the effects that came before it in place. *)
Definition M (A : Type) : Type := World -> result A * World.

Definition ret {A} (a : A) : M A := fun w => (Ok a, w).

Definition bind {A B} (m : M A) (k : A -> M B) : M B :=
  fun w =>
    match m w with
    | (Ok a, w') => k a w'
    | (Raise e, w') => (Raise e, w')
    | (Timeout, w') => (Timeout, w')
    end.

Definition lift {A} (r : result A) : M A := fun w => (r, w).

Notation "'let*' x ':=' m 'in' k" := (bind m (fun x => k))
  (at level 10, x name, m at level 100, k at level 200).
Notation "m ';;' k" := (bind m (fun _ => k))
  (at level 100, k at level 200, right associativity).

(** [writer.add_page(page)] *)
Definition add_page (p : Page) : M unit := fun w =>
  (Ok tt,
   mkWorld (mkPdfWriter (writer_pages (writer w) ++ [p])
                        (writer_outline (writer w)))
           (stderr w)).

(** [len(writer.pages)] *)
Definition num_pages : M Z := fun w => (Ok (len (writer_pages (writer w))), w).

(** [writer.add_outline_item(title=..., page_number=..., parent=...)]: the
    new entry becomes the last child of [parent] (of the outline's root for
    [None]); the call returns the reference to the new entry. *)
Definition add_outline_item (title : string) (page_number : Z)
    (parent : option nat) : M nat := fun w =>
  (Ok (length (writer_outline (writer w))),
   mkWorld (mkPdfWriter (writer_pages (writer w))
              (writer_outline (writer w)
                 ++ [mkOutlineItem title page_number parent]))
           (stderr w)).

(** [print(..., file=sys.stderr)] *)
Definition print_stderr (line : string) : M unit := fun w =>
  (Ok tt, mkWorld (writer w) (stderr w ++ [line])).

(** ** [add_bookmarks_to_pdf] *)

(** [f"Warning: Skipping heading '{heading.title}' - "
     f"page {heading.page} out of range"] *)
Definition skip_warning (heading : Heading) : string :=
  ("Warning: Skipping heading '" ++ title heading ++ "' - "
     ++ "page " ++ str_of_int (page heading) ++ " out of range")%string.

(** [while len(parent_stack) > heading.level: parent_stack.pop()] *)
Fixpoint pop_loop (fuel : nat) (lvl : Z) (parent_stack : list (option nat))
    : result (list (option nat)) :=
  if len parent_stack >? lvl then
    match fuel with
    | O => Timeout
    | S fuel =>
        match py_pop parent_stack with
        | Ok parent_stack => pop_loop fuel lvl parent_stack
        | Raise e => Raise e
        | Timeout => Timeout
        end
    end
  else Ok parent_stack.

(** [while len(parent_stack) < heading.level:
       parent_stack.append(parent_stack[-1])] *)
Fixpoint pad_loop (fuel : nat) (lvl : Z) (parent_stack : list (option nat))
    : result (list (option nat)) :=
  if len parent_stack <? lvl then
    match fuel with
    | O => Timeout
    | S fuel =>
        match py_getitem parent_stack (-1) with
        | Ok top => pad_loop fuel lvl (parent_stack ++ [top])
        | Raise e => Raise e
        | Timeout => Timeout
        end
    end
  else Ok parent_stack.

(** The number of iterations the two loops are given: the first one pops
    at most every entry and then fails on the empty list, the second one
    appends [heading.level - len(parent_stack)] entries. *)
Definition pop_fuel (parent_stack : list (option nat)) : nat :=
  S (length parent_stack).
Definition pad_fuel (lvl : Z) (parent_stack : list (option nat)) : nat :=
  Z.to_nat (lvl - len parent_stack).

(** [parent = parent_stack[-1] if len(parent_stack) > 0 else None] *)
Definition get_parent (parent_stack : list (option nat)) : result (option nat) :=
  if len parent_stack >? 0 then py_getitem parent_stack (-1) else Ok None.

(** The body of [for heading in outline.headings], from the local
    [parent_stack] to the [parent_stack] the next iteration starts with. *)
Definition loop_body (heading : Heading) (parent_stack : list (option nat))
    : M (list (option nat)) :=
  let page_num := page heading - 1 in
  let* n := num_pages in
  if (page_num <? 0) || (page_num >=? n) then
    print_stderr (skip_warning heading) ;;
    ret parent_stack
  else
    let* parent_stack := lift (pop_loop (pop_fuel parent_stack) (level heading) parent_stack) in
    let* parent := lift (get_parent parent_stack) in
    let* bookmark := add_outline_item (title heading) page_num parent in
    let* parent_stack := lift (pad_loop (pad_fuel (level heading) parent_stack)
                            (level heading) parent_stack) in
    if len parent_stack =? level heading then
      ret (parent_stack ++ [Some bookmark])
    else
      lift (py_setitem parent_stack (level heading) (Some bookmark)).

(** [for heading in outline.headings: ...] *)
Fixpoint for_headings (hs : list Heading) (parent_stack : list (option nat))
    : M (list (option nat)) :=
  match hs with
  | [] => ret parent_stack
  | heading :: rest =>
      let* parent_stack := loop_body heading parent_stack in
      for_headings rest parent_stack
  end.

(** [for page in reader.pages: writer.add_page(page)] *)
Fixpoint add_pages (reader_pages : list Page) : M unit :=
  match reader_pages with
  | [] => ret tt
  | p :: rest => add_page p ;; add_pages rest
  end.

(** [writer = PdfWriter()] *)
Definition new_writer : PdfWriter := mkPdfWriter [] [].

(** [add_bookmarks_to_pdf], from the pages of the document read at
    [input_path] to the writer whose content is written to [output_path];
    [err] is what the error stream holds when the method is called.
    The final stack is returned for the statements about it. *)
Definition add_bookmarks_to_pdf (reader_pages : list Page)
    (outline : DocumentOutline) (err : list string)
    : result (list (option nat)) * World :=
  (add_pages reader_pages ;;
   for_headings (headings outline) [None])
    (mkWorld new_writer err).

(** ** Notions the statements use *)

(** The world after one more outline entry, and after one more line on
    the error stream. *)
Definition with_item (w : World) (it : OutlineItem) : World :=
  mkWorld (mkPdfWriter (writer_pages (writer w))
                       (writer_outline (writer w) ++ [it]))
          (stderr w).

Definition with_warning (w : World) (line : string) : World :=
  mkWorld (writer w) (stderr w ++ [line]).

(** [N], the number of pages of the document in the writer. *)
Definition page_count (w : World) : Z := len (writer_pages (writer w)).

(** The reference the next outline entry gets. *)
Definition next_ref (w : World) : nat := length (writer_outline (writer w)).

(** The world the loop starts in. *)
Definition start_world (reader_pages : list Page) (err : list string) : World :=
  mkWorld (mkPdfWriter reader_pages []) err.

(** What the loop keeps true of [parent_stack] when every level is at
    least 1: index 0 holds the [None] the stack was created with. *)
Definition has_sentinel (stk : list (option nat)) : Prop :=
  stk !! 0%nat = Some None.

(** Two worlds that hold documents with as many pages and the same
    outline; the pages themselves and the error streams may differ. *)
Definition same_document (w1 w2 : World) : Prop :=
  length (writer_pages (writer w1)) = length (writer_pages (writer w2))
  /\ writer_outline (writer w1) = writer_outline (writer w2).

(** [w'] is [w] after [ws] was printed and some outline entries were
    added; the pages are the same. *)
Definition emits (w w' : World) (ws : list string) : Prop :=
  stderr w' = stderr w ++ ws
  /\ writer_pages (writer w') = writer_pages (writer w).

(** The levels are well nested below an entry of level [prev]: each one is
    at least 1 and at most one more than the level before it; the root of
    the outline counts as level 0. *)
Fixpoint well_nested (prev : Z) (levels : list Z) : bool :=
  match levels with
  | [] => true
  | l :: rest => (1 <=? l) && (l <=? prev + 1) && well_nested l rest
  end.

(** The level of the last heading, [prev] when there is none. *)
Definition last_level (prev : Z) (levels : list Z) : Z :=
  default prev (last levels).

(** Among the first [i] headings, [j] is the most recent one of level [k]. *)
Definition most_recent_at (levels : list Z) (i : nat) (k : Z) (j : nat) : Prop :=
  (j < i)%nat
  /\ levels !! j = Some k
  /\ forall j', (j < j' < i)%nat -> levels !! j' <> Some k.

(** The parent the levels imply for heading [i] of level [l]: none for
    level 1, else the most recent earlier heading of level [l - 1]. *)
Definition implied_parent (levels : list Z) (i : nat) (l : Z) (p : option nat) : Prop :=
  (l = 1 /\ p = None)
  \/ (1 < l /\ exists j, p = Some j /\ most_recent_at levels i (l - 1) j).

(** The depth of entry [i] in the outline: 1 at the top, one more than
    the parent's below; [fuel] bounds the walk up the parents. *)
Fixpoint item_depth (fuel : nat) (items : list OutlineItem) (i : nat) : Z :=
  match fuel with
  | O => 0
  | S fuel =>
      match items !! i with
      | None => 0
      | Some it =>
          match item_parent it with
          | None => 1
          | Some p => 1 + item_depth fuel items p
          end
      end
  end.

(** What holds after the loop has run over the well-nested headings [hs],
    all on pages of the document: one entry per heading, under the parent
    the levels imply, and a stack that holds, at each index from 1 to the
    last level, the most recent entry of that level. *)
Definition nested_state (reader_pages : list Page) (err : list string)
    (hs : list Heading) (stk : list (option nat)) (w : World) : Prop :=
  writer_pages (writer w) = reader_pages
  /\ stderr w = err
  /\ length (writer_outline (writer w)) = length hs
  /\ len stk = last_level 0 (map level hs) + 1
  /\ has_sentinel stk
  /\ (forall k, 1 <= k <= last_level 0 (map level hs) ->
        exists j, stk !! Z.to_nat k = Some (Some j)
                  /\ most_recent_at (map level hs) (length hs) k j)
  /\ (forall i h, hs !! i = Some h ->
        exists p, writer_outline (writer w) !! i
                    = Some (mkOutlineItem (title h) (page h - 1) p)
                  /\ implied_parent (map level hs) i (level h) p).

(** The headings on pages of a document of [n] pages, and the others. *)
Definition in_range (n : Z) (h : Heading) : bool :=
  (1 <=? page h) && (page h <=? n).

Definition kept (n : Z) (hs : list Heading) : list Heading :=
  List.filter (in_range n) hs.

Definition skipped (n : Z) (hs : list Heading) : list Heading :=
  List.filter (fun h => negb (in_range n h)) hs.

(** The entry [it] was made for the heading [h]. *)
Definition entry_of (it : OutlineItem) (h : Heading) : Prop :=
  item_title it = title h /\ item_page it = page h - 1.

(** What the loop keeps true over headings of level 1 or more, whatever
    their pages and the order of their levels: the entries are those of
    the kept headings, the warnings those of the skipped ones, a
    reference on the stack at index [k] is an entry made for a level at
    most [k], and the parent of an entry is an earlier entry, made for a
    smaller level. *)
Definition built_state (reader_pages : list Page) (err : list string)
    (hs : list Heading) (stk : list (option nat)) (w : World) : Prop :=
  let ks := kept (len reader_pages) hs in
  writer_pages (writer w) = reader_pages
  /\ stderr w = err ++ map skip_warning (skipped (len reader_pages) hs)
  /\ Forall2 entry_of (writer_outline (writer w)) ks
  /\ has_sentinel stk
  /\ (forall k j, stk !! k = Some (Some j) ->
        exists hj, ks !! j = Some hj /\ level hj <= Z.of_nat k)
  /\ (forall i it h j,
        writer_outline (writer w) !! i = Some it -> ks !! i = Some h ->
        item_parent it = Some j ->
        (j < i)%nat /\ exists hj, ks !! j = Some hj /\ level hj < level h).

(** Every reference on the stack is to an entry of the outline. *)
Definition refs_valid (stk : list (option nat)) (w : World) : Prop :=
  forall j, Some j ∈ stk -> (j < next_ref w)%nat.

(** Every entry points to a page of the document and, when it has a
    parent, to an entry created before it. *)
Definition outline_safe (w : World) : Prop :=
  forall i it, writer_outline (writer w) !! i = Some it ->
    0 <= item_page it < page_count w
    /\ forall j, item_parent it = Some j -> (j < i)%nat.

(** The part of the document text that one page gives. *)
Definition page_block (page_data : PageData) : string :=
  (LF ++ "--- PAGE " ++ str_of_int (pd_page page_data) ++ " ---" ++ LF
     ++ pd_text page_data)%string.

(** ** [process_pdf] and the command line *)

(** [s * n] on a string: [n] copies of [s], none when [n <= 0]. *)
Fixpoint str_repeat_nat (s : string) (n : nat) : string :=
  match n with
  | O => EmptyString
  | S n => (s ++ str_repeat_nat s n)%string
  end.

Definition str_repeat (s : string) (n : Z) : string :=
  str_repeat_nat s (Z.to_nat n).

(** What a run leaves behind: the lines printed on the two streams and
    the documents written, each with its path. *)
Record Session : Type := mkSession {
  stdout : list string;
  session_stderr : list string;
  written : list (string * PdfWriter);
}.

(** [print(line)] and [print(line, file=sys.stderr)] *)
Definition print (s : Session) (line : string) : Session :=
  mkSession (stdout s ++ [line]) (session_stderr s) (written s).

Definition print_err (s : Session) (line : string) : Session :=
  mkSession (stdout s) (session_stderr s ++ [line]) (written s).

Section Program.

(** The pictographs at the head of the messages and the mark of the
    outline listing are single characters outside ASCII; they are kept
    abstract, as are the operations of [pathlib] and the text of an
    exception. *)
Variables icon_reading icon_analyzing icon_adding icon_saved : string.
Variables icon_outline icon_error marker : string.
Variables path_parent path_stem : string -> string.
Variable path_join : string -> string -> string.
Variable exn_text : exn -> string.

(** [input_path.parent / f"{input_path.stem}_outlined.pdf"] *)
Definition default_output_path (input_path : string) : string :=
  path_join (path_parent input_path) (path_stem input_path ++ "_outlined.pdf")%string.

(** [process_pdf], for an input that [PdfReader] reads as [reader_pages]
    and an output file that can be written.  [completion] stands for the
    model behind [analyze_pdf_with_llm]. *)
Definition process_pdf (model : string)
    (completion : string -> result (list Heading))
    (reader_pages : list Page) (input_path : string)
    (output_path : option string) (s : Session)
    : result DocumentOutline * Session :=
  let output_path :=
    match output_path with
    | None => default_output_path input_path
    | Some p => p
    end in
  let s := print s (icon_reading ++ " Reading PDF: " ++ input_path)%string in
  let pages := extract_text_with_pages reader_pages in
  let s := print s ("   Found " ++ str_of_int (len pages) ++ " pages")%string in
  let s := print s (LF ++ icon_analyzing ++ " Analyzing with " ++ model ++ "...")%string in
  match analyze_pdf_with_llm completion pages with
  | Ok outline =>
      let s := print s ("   Detected " ++ str_of_int (len (headings outline))
                          ++ " headings")%string in
      let s := print s (LF ++ icon_adding ++ " Adding bookmarks to PDF...")%string in
      match add_bookmarks_to_pdf reader_pages outline (session_stderr s) with
      | (Ok _, w) =>
          let s := mkSession (stdout s) (stderr w)
                     (written s ++ [(output_path, writer w)]) in
          let s := print s ("   " ++ icon_saved ++ " Saved to: " ++ output_path)%string in
          (Ok outline, s)
      | (Raise e, w) => (Raise e, mkSession (stdout s) (stderr w) (written s))
      | (Timeout, w) => (Timeout, mkSession (stdout s) (stderr w) (written s))
      end
  | Raise e => (Raise e, s)
  | Timeout => (Timeout, s)
  end.

(** One line of the listing that [--show-outline] prints:
    [indent = "  " * (heading.level - 1)], then the mark [heading.level]
    times, the title and the page. *)
Definition outline_line (heading : Heading) : string :=
  let indent := str_repeat "  " (level heading - 1) in
  (indent ++ str_repeat marker (level heading) ++ " " ++ title heading
     ++ " (p." ++ str_of_int (page heading) ++ ")")%string.

(** [for heading in outline.headings: print(...)] *)
Fixpoint print_outline (hs : list Heading) (s : Session) : Session :=
  match hs with
  | [] => s
  | heading :: rest => print_outline rest (print s (outline_line heading))
  end.

(** [cli], after [parser.parse_args()]: [input_exists] is
    [args.input_pdf.exists()]; the result is the exit status of the
    program, 1 after [sys.exit(1)] and 0 when [cli] returns. *)
Definition cli (input_exists : bool) (input_pdf : string)
    (output : option string) (model : string) (show_outline : bool)
    (completion : string -> result (list Heading))
    (reader_pages : list Page) (s : Session) : result Z * Session :=
  if negb input_exists then
    (Ok 1, print_err s (icon_error ++ " Error: Input file not found: " ++ input_pdf)%string)
  else
    match process_pdf model completion reader_pages input_pdf output s with
    | (Ok outline, s) =>
        if show_outline then
          let s := print s (LF ++ icon_outline ++ " Detected Outline:")%string in
          let s := print s (str_repeat "=" 60) in
          (Ok 0, print_outline (headings outline) s)
        else (Ok 0, s)
    | (Raise e, s) =>
        (Ok 1, print_err s (icon_error ++ " Error: " ++ exn_text e)%string)
    | (Timeout, s) => (Timeout, s)
    end.

End Program.

(** * Properties *)

(** ** The list operations *)

Section PyListFacts.
Context {A : Type}.
Implicit Types (l : list A) (x : A) (i : Z).

Lemma len_nonneg l : 0 <= len l.
Proof. unfold len. lia. Qed.

Lemma len_app l1 l2 : len (l1 ++ l2) = len l1 + len l2.
Proof. unfold len. rewrite length_app. lia. Qed.

Lemma len_nil_iff l : len l = 0 <-> l = [].
Proof.
  unfold len. destruct l; simpl; split; intros H; try done; lia.
Qed.

Lemma removelast_take l : removelast l = take (pred (length l)) l.
Proof. apply removelast_firstn_len. Qed.

Lemma py_getitem_last l :
  py_getitem l (-1) =
  match last l with Some x => Ok x | None => Raise IndexError end.
Proof.
  unfold py_getitem, py_index, len.
  change (-1 <? 0) with true. cbv iota.
  destruct l as [|a l' _] using rev_ind; [reflexivity|].
  rewrite last_snoc, length_app. simpl length.
  destruct (_ <? 0) eqn:E1; [lia|].
  destruct (_ <=? _) eqn:E2; [lia|]. simpl.
  replace (Z.to_nat _) with (length l') by lia.
  by rewrite list_lookup_middle.
Qed.

Lemma py_setitem_in_range l i x :
  0 <= i < len l -> py_setitem l i x = Ok (<[Z.to_nat i := x]> l).
Proof.
  intros H. unfold py_setitem, py_index.
  destruct (i <? 0) eqn:E; [lia|].
  destruct (i <? 0) eqn:E1; [lia|].
  destruct (len l <=? i) eqn:E2; [lia|]. reflexivity.
Qed.
End PyListFacts.

(** ** The two [while] loops in closed form *)

Lemma pop_loop_closed fuel lvl stk :
  (length stk < fuel)%nat ->
  pop_loop fuel lvl stk =
  if lvl <? 0 then Raise IndexError else Ok (take (Z.to_nat lvl) stk).
Proof.
  revert stk. induction fuel as [|fuel IH]; intros stk Hf; [lia|].
  simpl. unfold len.
  destruct (Z.of_nat (length stk) >? lvl) eqn:E.
  - destruct stk as [|a stk'] eqn:Es.
    + simpl in *. destruct (lvl <? 0) eqn:E'; [done|lia].
    + rewrite <- Es in *. assert (Hl : length stk = S (length stk')) by (by subst).
      unfold py_pop. rewrite Es, <- Es. rewrite IH.
      * destruct (lvl <? 0) eqn:E'; [done|]. f_equal.
        rewrite removelast_take, take_take. f_equal. lia.
      * rewrite removelast_take, length_take. lia.
  - destruct (lvl <? 0) eqn:E'; [lia|].
    rewrite take_ge by lia. done.
Qed.

Lemma pad_loop_closed fuel lvl stk top :
  last stk = Some top ->
  (Z.to_nat (lvl - len stk) <= fuel)%nat ->
  pad_loop fuel lvl stk = Ok (stk ++ replicate (Z.to_nat (lvl - len stk)) top).
Proof.
  revert stk. induction fuel as [|fuel IH]; intros stk Hl Hf; simpl.
  - destruct (len stk <? lvl) eqn:E; [lia|].
    replace (Z.to_nat _) with 0%nat by lia. by rewrite app_nil_r.
  - destruct (len stk <? lvl) eqn:E.
    + rewrite py_getitem_last, Hl.
      rewrite IH; [|by rewrite last_snoc|rewrite len_app; unfold len in *; simpl; lia].
      f_equal. rewrite <- app_assoc. f_equal.
      rewrite len_app. unfold len in *. simpl length.
      replace (Z.to_nat (lvl - Z.of_nat (length stk)))
        with (S (Z.to_nat (lvl - (Z.of_nat (length stk) + Z.of_nat 1)))) by lia.
      reflexivity.
    + replace (Z.to_nat _) with 0%nat by lia. by rewrite app_nil_r.
Qed.

Lemma pad_loop_done fuel lvl stk :
  lvl <= len stk -> pad_loop fuel lvl stk = Ok stk.
Proof.
  intros H. destruct fuel; simpl; destruct (len stk <? lvl) eqn:E; done || lia.
Qed.

(** ** One iteration of the loop *)

Lemma loop_body_skip h stk w :
  page h < 1 \/ page_count w < page h ->
  loop_body h stk w = (Ok stk, with_warning w (skip_warning h)).
Proof.
  intros Hp. unfold loop_body, bind, num_pages, page_count in *.
  destruct (_ || _) eqn:E; [reflexivity | lia].
Qed.

Lemma take_level_last (stk : list (option nat)) lvl :
  stk <> [] -> 1 <= lvl -> is_Some (last (take (Z.to_nat lvl) stk)).
Proof.
  intros Hs Hl. destruct stk as [|a stk']; [done|].
  destruct (Z.to_nat lvl) as [|n] eqn:E; [lia|].
  rewrite firstn_cons. rewrite last_cons. destruct (last _); eauto.
Qed.

Lemma loop_body_attach h stk w top :
  1 <= page h <= page_count w ->
  0 <= level h ->
  last (take (Z.to_nat (level h)) stk) = Some top ->
  loop_body h stk w =
  (Ok (take (Z.to_nat (level h)) stk
         ++ replicate (Z.to_nat (level h) - length (take (Z.to_nat (level h)) stk)) top
         ++ [Some (next_ref w)]),
   with_item w (mkOutlineItem (title h) (page h - 1) top)).
Proof.
  intros Hp Hl Ht. unfold loop_body, bind, num_pages, page_count in *.
  destruct (_ || _) eqn:E; [lia|]. clear E.
  unfold lift at 1. rewrite pop_loop_closed by (unfold pop_fuel; lia).
  destruct (level h <? 0) eqn:E; [lia|]. clear E.
  set (s := take (Z.to_nat (level h)) stk) in *.
  assert (Hs : s <> []) by (intros ->; done).
  assert (Hlen : 0 < len s <= level h).
  { unfold len. split.
    - destruct s; [done|simpl; lia].
    - subst s. rewrite length_take. lia. }
  unfold lift at 1, get_parent.
  destruct (len s >? 0) eqn:E; [|lia]. clear E.
  rewrite py_getitem_last, Ht.
  unfold add_outline_item, lift at 1.
  rewrite (pad_loop_closed _ _ _ top) by (done || (unfold pad_fuel; lia)).
  rewrite len_app. unfold len at 2. rewrite length_replicate.
  destruct (_ =? _) eqn:E; [|unfold len in *; lia]. clear E.
  unfold ret, with_item, next_ref. f_equal. f_equal.
  rewrite <- app_assoc. do 3 f_equal. unfold len in *. lia.
Qed.

(** ** The loop over a concatenation *)

Lemma for_headings_app hs1 hs2 stk w :
  for_headings (hs1 ++ hs2) stk w =
  (let* stk' := for_headings hs1 stk in for_headings hs2 stk') w.
Proof.
  revert stk w. induction hs1 as [|h hs1 IH]; intros stk w; simpl.
  - reflexivity.
  - unfold bind in *. destruct (loop_body h stk w) as [[s| |] w']; try reflexivity.
    apply IH.
Qed.

Lemma for_headings_snoc hs h stk w stk' w' :
  for_headings hs stk w = (Ok stk', w') ->
  for_headings (hs ++ [h]) stk w = loop_body h stk' w'.
Proof.
  intros H. rewrite for_headings_app. unfold bind at 1. rewrite H. simpl.
  unfold bind. destruct (loop_body h stk' w') as [[s| |] w'']; reflexivity.
Qed.

Lemma for_headings_after hs1 hs2 stk w stk' w' :
  for_headings hs1 stk w = (Ok stk', w') ->
  for_headings (hs1 ++ hs2) stk w = for_headings hs2 stk' w'.
Proof.
  intros H. rewrite for_headings_app. unfold bind. by rewrite H.
Qed.

Lemma add_pages_run reader_pages w :
  add_pages reader_pages w =
  (Ok tt, mkWorld (mkPdfWriter (writer_pages (writer w) ++ reader_pages)
                               (writer_outline (writer w)))
                  (stderr w)).
Proof.
  revert w. induction reader_pages as [|p ps IH]; intros w; simpl.
  - unfold ret. rewrite app_nil_r. by destruct w as [[? ?] ?].
  - unfold bind, add_page. rewrite IH. simpl. by rewrite <- app_assoc.
Qed.

Lemma add_bookmarks_to_pdf_loop reader_pages outline err :
  add_bookmarks_to_pdf reader_pages outline err =
  for_headings (headings outline) [None] (start_world reader_pages err).
Proof.
  unfold add_bookmarks_to_pdf, bind. rewrite add_pages_run. reflexivity.
Qed.

(** ** The root sentinel *)

Lemma has_sentinel_nonempty stk : has_sentinel stk -> stk <> [].
Proof. by intros H ->. Qed.

Lemma has_sentinel_take stk lvl :
  1 <= lvl -> has_sentinel stk -> has_sentinel (take (Z.to_nat lvl) stk).
Proof.
  unfold has_sentinel. intros Hl H.
  rewrite lookup_take_lt by lia. done.
Qed.

Lemma has_sentinel_app stk tail :
  has_sentinel stk -> has_sentinel (stk ++ tail).
Proof.
  unfold has_sentinel. intros H. rewrite lookup_app_l; [done|].
  apply lookup_lt_Some in H. done.
Qed.

Lemma page_in_range_dec (h : Heading) (w : World) :
  {1 <= page h <= page_count w} + {page h < 1 \/ page_count w < page h}.
Proof.
  destruct (Z_le_dec 1 (page h)), (Z_le_dec (page h) (page_count w));
    (left; lia) || (right; lia).
Qed.

Lemma with_item_pages w it : writer_pages (writer (with_item w it)) = writer_pages (writer w).
Proof. reflexivity. Qed.

Lemma with_warning_pages w s :
  writer_pages (writer (with_warning w s)) = writer_pages (writer w).
Proof. reflexivity. Qed.

Lemma loop_body_sentinel h stk w :
  1 <= level h -> has_sentinel stk ->
  exists stk' w',
    loop_body h stk w = (Ok stk', w')
    /\ has_sentinel stk'
    /\ writer_pages (writer w') = writer_pages (writer w).
Proof.
  intros Hl Hs. destruct (page_in_range_dec h w) as [Hp|Hp].
  - destruct (take_level_last stk (level h)) as [top Ht];
      [by apply has_sentinel_nonempty|done|].
    rewrite (loop_body_attach _ _ _ top) by (done || lia).
    eexists _, _. split; [reflexivity|]. split; [|reflexivity].
    by apply has_sentinel_app, has_sentinel_take.
  - rewrite loop_body_skip by done. eauto.
Qed.

Lemma for_headings_sentinel hs stk w :
  Forall (fun h => 1 <= level h) hs -> has_sentinel stk ->
  exists stk' w',
    for_headings hs stk w = (Ok stk', w')
    /\ has_sentinel stk'
    /\ writer_pages (writer w') = writer_pages (writer w).
Proof.
  intros Hall. revert stk w.
  induction Hall as [|h hs Hh _ IH]; intros stk w Hs; simpl.
  - unfold ret. eauto.
  - destruct (loop_body_sentinel h stk w Hh Hs) as (s1 & w1 & E1 & Hs1 & Hp1).
    destruct (IH s1 w1 Hs1) as (s2 & w2 & E2 & Hs2 & Hp2).
    exists s2, w2. unfold bind. rewrite E1. split; [done|]. split; [done|].
    congruence.
Qed.

(** C10. While the builder runs over headings whose levels are all at
    least 1, [parent_stack] is never empty: before any heading [h] of the
    outline the stack still has the [None] it was created with at index 0,
    the first [while] loop leaves that entry in place, so the parent read
    from the top of the stack is defined; the second loop leaves a stack
    of exactly [level h] entries, so the test [len(parent_stack) ==
    heading.level] holds, the bookmark is appended (never assigned by
    index), and right after the node is attached the stack has
    [level h + 1] entries. *)
Theorem C10_stack_never_empty reader_pages err outline pre h post :
  Forall (fun h => 1 <= level h) (headings outline) ->
  headings outline = pre ++ h :: post ->
  exists stk w,
    for_headings pre [None] (start_world reader_pages err) = (Ok stk, w)
    /\ writer_pages (writer w) = reader_pages
    /\ has_sentinel stk
    /\ exists s1 parent s2,
         pop_loop (pop_fuel stk) (level h) stk = Ok s1
         /\ has_sentinel s1
         /\ get_parent s1 = Ok parent
         /\ last s1 = Some parent
         /\ pad_loop (pad_fuel (level h) s1) (level h) s1 = Ok s2
         /\ has_sentinel s2
         /\ len s2 = level h
         /\ (1 <= page h <= len reader_pages ->
             loop_body h stk w =
               (Ok (s2 ++ [Some (next_ref w)]),
                with_item w (mkOutlineItem (title h) (page h - 1) parent))
             /\ len (s2 ++ [Some (next_ref w)]) = level h + 1).
Proof.
  intros Hall Hsplit. rewrite Hsplit in Hall.
  apply Forall_app in Hall as [Hpre Hrest].
  apply Forall_cons in Hrest as [Hh _].
  destruct (for_headings_sentinel pre [None] (start_world reader_pages err))
    as (stk & w & Erun & Hs & Hpg); [done|done|].
  exists stk, w. split; [done|]. split; [done|]. split; [done|].
  pose proof (has_sentinel_take stk (level h) Hh Hs) as Hs1.
  destruct (take_level_last stk (level h)) as [top Ht];
    [by apply has_sentinel_nonempty|done|].
  set (s1 := take (Z.to_nat (level h)) stk) in *.
  assert (Hlen1 : 0 < len s1 <= level h).
  { unfold len. split.
    - apply lookup_lt_Some in Hs1. lia.
    - subst s1. rewrite length_take. lia. }
  exists s1, top, (s1 ++ replicate (Z.to_nat (level h - len s1)) top).
  split. { rewrite pop_loop_closed by (unfold pop_fuel; lia).
           destruct (level h <? 0) eqn:E; [lia|done]. }
  split; [done|].
  split. { unfold get_parent. destruct (len s1 >? 0) eqn:E; [|lia].
           by rewrite py_getitem_last, Ht. }
  split; [done|].
  split. { by apply pad_loop_closed. }
  split. { by apply has_sentinel_app. }
  assert (Hlen2 : len (s1 ++ replicate (Z.to_nat (level h - len s1)) top) = level h).
  { rewrite len_app. unfold len in *. rewrite length_replicate. lia. }
  split; [done|].
  intros Hp. split.
  - rewrite (loop_body_attach _ _ _ top)
      by (done || lia || (unfold page_count; by rewrite Hpg)).
    fold s1. f_equal. f_equal. rewrite <- app_assoc. do 3 f_equal.
    unfold len in *. lia.
  - rewrite len_app, Hlen2. reflexivity.
Qed.

Lemma C10_stack_never_empty_witness :
  Forall (fun h => 1 <= level h) (headings Samples.skip_outline)
  /\ exists stk w,
       for_headings [Samples.hA] [None] (start_world Samples.two_pages [])
         = (Ok stk, w)
       /\ has_sentinel stk
       /\ exists s2 parent,
            len s2 = 3
            /\ loop_body Samples.hB stk w
                = (Ok (s2 ++ [Some (next_ref w)]),
                   with_item w (mkOutlineItem (title Samples.hB) 0 parent)).
Proof.
  assert (Hall : Forall (fun h => 1 <= level h) (headings Samples.skip_outline)).
  { repeat constructor; simpl; lia. }
  split; [exact Hall|].
  destruct (C10_stack_never_empty Samples.two_pages [] Samples.skip_outline
              [Samples.hA] Samples.hB [Samples.hC] Hall eq_refl)
    as (stk & w & Erun & _ & Hs & s1 & parent & s2
          & _ & _ & _ & _ & _ & _ & Hlen & Hbody).
  exists stk, w. split; [exact Erun|]. split; [exact Hs|].
  exists s2, parent. split; [exact Hlen|].
  apply Hbody. vm_compute. split; discriminate.
Defined.

(** ** The outline depends on the page count only *)

Lemma loop_body_sim h stk w1 w2 :
  same_document w1 w2 ->
  exists r w1' w2' ws,
    loop_body h stk w1 = (r, w1')
    /\ loop_body h stk w2 = (r, w2')
    /\ same_document w1' w2'
    /\ emits w1 w1' ws /\ emits w2 w2' ws.
Proof.
  destruct w1 as [[pg1 ol1] e1], w2 as [[pg2 ol2] e2].
  unfold same_document, emits. simpl. intros [Hlen <-].
  unfold loop_body, bind, num_pages, lift, print_stderr, ret, add_outline_item.
  cbn [writer writer_pages writer_outline stderr].
  replace (len pg2) with (len pg1) by (unfold len; congruence).
  destruct (_ || _); cbn beta iota.
  { eexists _, _, _, [_]. cbn. repeat split; done. }
  destruct (pop_loop _ _ _) as [s1| |];
    [|eexists _, _, _, []; cbn; rewrite !app_nil_r; repeat split; done..].
  destruct (get_parent s1) as [parent| |];
    [|eexists _, _, _, []; cbn; rewrite !app_nil_r; repeat split; done..].
  cbn [writer writer_pages writer_outline stderr].
  destruct (pad_loop _ _ _) as [s2| |];
    [|eexists _, _, _, []; cbn; rewrite !app_nil_r; repeat split; done..].
  destruct (_ =? _); cbn beta iota;
    [eexists _, _, _, []; cbn; rewrite !app_nil_r; repeat split; done|].
  destruct (py_setitem _ _ _);
    eexists _, _, _, []; cbn; rewrite !app_nil_r; repeat split; done.
Qed.

Lemma for_headings_sim hs stk w1 w2 :
  same_document w1 w2 ->
  exists r w1' w2' ws,
    for_headings hs stk w1 = (r, w1')
    /\ for_headings hs stk w2 = (r, w2')
    /\ same_document w1' w2'
    /\ emits w1 w1' ws /\ emits w2 w2' ws.
Proof.
  revert stk w1 w2. induction hs as [|h hs IH]; intros stk w1 w2 Hsame; simpl.
  - exists (Ok stk), w1, w2, []. unfold ret, emits. rewrite !app_nil_r. done.
  - destruct (loop_body_sim h stk w1 w2 Hsame)
      as (r & v1 & v2 & ws & E1 & E2 & Hs & [He1 Hp1] & [He2 Hp2]).
    unfold bind. rewrite E1, E2. destruct r as [s| |].
    + destruct (IH s v1 v2 Hs)
        as (r' & u1 & u2 & ws' & F1 & F2 & Hs' & [Hf1 Hq1] & [Hf2 Hq2]).
      exists r', u1, u2, (ws ++ ws'). unfold emits.
      rewrite F1, F2, Hf1, Hf2, He1, He2, Hq1, Hq2, Hp1, Hp2, !app_assoc. done.
    + exists (Raise e), v1, v2, ws. done.
    + exists Timeout, v1, v2, ws. done.
Qed.

(** With the iterations they are given, the two [while] loops come to an
    end: the loop over the headings returns or raises. *)
Lemma pad_loop_terminates lvl stk :
  pad_loop (pad_fuel lvl stk) lvl stk <> Timeout.
Proof.
  destruct (last stk) as [top|] eqn:Et.
  - by rewrite (pad_loop_closed _ _ _ top).
  - apply last_None in Et as ->. unfold pad_fuel, len. simpl length.
    destruct (Z.to_nat (lvl - Z.of_nat 0)) as [|f] eqn:Ef; simpl; unfold len; simpl.
    + destruct (_ <? _) eqn:E; [lia|done].
    + destruct (_ <? _) eqn:E; done.
Qed.

Lemma loop_body_terminates h stk w : fst (loop_body h stk w) <> Timeout.
Proof.
  unfold loop_body, bind, num_pages, lift, print_stderr, ret, add_outline_item.
  destruct (_ || _); cbn beta iota; [done|].
  rewrite pop_loop_closed by (unfold pop_fuel; lia).
  destruct (level h <? 0); [done|].
  unfold get_parent. destruct (len _ >? 0).
  - rewrite py_getitem_last. destruct (last _) as [parent|]; [|done].
    pose proof (pad_loop_terminates (level h) (take (Z.to_nat (level h)) stk)) as Hpad.
    destruct (pad_loop _ _ _) as [s2| |]; [|done..].
    destruct (_ =? _); cbn beta iota; [done|].
    unfold py_setitem, py_index. simpl. by destruct (_ || _).
  - pose proof (pad_loop_terminates (level h) (take (Z.to_nat (level h)) stk)) as Hpad.
    destruct (pad_loop _ _ _) as [s2| |]; [|done..].
    destruct (_ =? _); cbn beta iota; [done|].
    unfold py_setitem, py_index. simpl. by destruct (_ || _).
Qed.

Lemma for_headings_terminates hs stk w : fst (for_headings hs stk w) <> Timeout.
Proof.
  revert stk w. induction hs as [|h hs IH]; intros stk w; simpl; [done|].
  unfold bind. pose proof (loop_body_terminates h stk w) as Hb.
  destruct (loop_body h stk w) as [[s1| |] w1]; [apply IH|done..].
Qed.

Lemma same_document_refl w : same_document w w.
Proof. by split. Qed.

Lemma for_headings_emits hs stk w r w' :
  for_headings hs stk w = (r, w') -> exists ws, emits w w' ws.
Proof.
  intros E.
  destruct (for_headings_sim hs stk w w (same_document_refl w))
    as (r0 & v1 & v2 & ws & E1 & _ & _ & He & _).
  exists ws. congruence.
Qed.

(** C7. The outline the builder makes is a function of the outline it is
    given and of the number of pages only: two runs on the same headings,
    over documents with as many pages (whatever the pages hold) and
    whatever the error stream held before, end the same way (both return
    the same stack, or both raise the same exception), build the same
    entries with the same parents, in the same order, with the same page
    targets, and print the same warnings. *)
Theorem C7_builder_deterministic pages1 pages2 err1 err2 outline :
  length pages1 = length pages2 ->
  exists r w1 w2 ws,
    add_bookmarks_to_pdf pages1 outline err1 = (r, w1)
    /\ add_bookmarks_to_pdf pages2 outline err2 = (r, w2)
    /\ r <> Timeout
    /\ writer_outline (writer w1) = writer_outline (writer w2)
    /\ stderr w1 = err1 ++ ws
    /\ stderr w2 = err2 ++ ws.
Proof.
  intros Hlen. rewrite !add_bookmarks_to_pdf_loop.
  pose proof (for_headings_terminates (headings outline) [None]
                (start_world pages1 err1)) as Hterm.
  destruct (for_headings_sim (headings outline) [None]
              (start_world pages1 err1) (start_world pages2 err2))
    as (r & w1 & w2 & ws & E1 & E2 & [_ Ho] & [He1 _] & [He2 _]).
  { split; [exact Hlen|reflexivity]. }
  exists r, w1, w2, ws. rewrite E1 in Hterm. done.
Qed.

Lemma C7_builder_deterministic_witness :
  length Samples.two_pages = length Samples.other_pages
  /\ exists r w1 w2 ws,
       add_bookmarks_to_pdf Samples.two_pages Samples.skip_outline [] = (r, w1)
       /\ add_bookmarks_to_pdf Samples.other_pages Samples.skip_outline
            Samples.old_errors = (r, w2)
       /\ r <> Timeout
       /\ writer_outline (writer w1) = writer_outline (writer w2)
       /\ stderr w1 = [] ++ ws
       /\ stderr w2 = Samples.old_errors ++ ws.
Proof.
  split; [reflexivity|].
  apply (C7_builder_deterministic Samples.two_pages Samples.other_pages
           [] Samples.old_errors Samples.skip_outline).
  reflexivity.
Defined.

(** ** Headings on a page the document does not have *)

(** C3. A heading whose page is above the page count [N] or below 1 adds
    no outline entry, prints exactly one warning, which names the title
    and the page, and leaves [parent_stack] as it was; the headings before
    and after it are processed as if it were not there: the run ends the
    same way and builds the same outline as the run without that heading,
    and its warnings are those of that run with this one inserted. *)
Theorem C3_out_of_range_heading_skipped reader_pages err pre h post stk w :
  page h < 1 \/ len reader_pages < page h ->
  for_headings pre [None] (start_world reader_pages err) = (Ok stk, w) ->
  loop_body h stk w = (Ok stk, with_warning w (skip_warning h))
  /\ writer_outline (writer (with_warning w (skip_warning h)))
     = writer_outline (writer w)
  /\ stderr (with_warning w (skip_warning h))
     = stderr w ++ [("Warning: Skipping heading '" ++ title h ++ "' - page "
                       ++ str_of_int (page h) ++ " out of range")%string]
  /\ exists r w_with w_without ws,
       for_headings (pre ++ h :: post) [None] (start_world reader_pages err)
         = (r, w_with)
       /\ for_headings (pre ++ post) [None] (start_world reader_pages err)
         = (r, w_without)
       /\ writer_outline (writer w_with) = writer_outline (writer w_without)
       /\ stderr w_without = stderr w ++ ws
       /\ stderr w_with = stderr w ++ [skip_warning h] ++ ws.
Proof.
  intros Hp Hpre.
  destruct (for_headings_emits _ _ _ _ _ Hpre) as (ws0 & _ & Hpg).
  assert (Hbody : loop_body h stk w = (Ok stk, with_warning w (skip_warning h))).
  { apply loop_body_skip. unfold page_count. rewrite Hpg. exact Hp. }
  split; [exact Hbody|]. split; [reflexivity|]. split; [reflexivity|].
  destruct (for_headings_sim post stk (with_warning w (skip_warning h)) w)
    as (r & w1 & w2 & ws & E1 & E2 & [_ Ho] & [He1 _] & [He2 _]).
  { split; reflexivity. }
  exists r, w1, w2, ws.
  rewrite (for_headings_after pre (h :: post) _ _ _ _ Hpre).
  rewrite (for_headings_after pre post _ _ _ _ Hpre).
  simpl for_headings. unfold bind at 1. rewrite Hbody.
  split; [exact E1|]. split; [exact E2|]. split; [exact Ho|].
  split; [exact He2|]. rewrite He1. simpl. by rewrite <- app_assoc.
Qed.

Lemma C3_out_of_range_heading_skipped_witness :
  (page Samples.hC < 1 \/ len Samples.two_pages < page Samples.hC)
  /\ loop_body Samples.hC [None; Some 0%nat]
       (with_item (start_world Samples.two_pages [])
                  (mkOutlineItem (title Samples.hA) 0 None))
     = (Ok [None; Some 0%nat],
        with_warning
          (with_item (start_world Samples.two_pages [])
                     (mkOutlineItem (title Samples.hA) 0 None))
          (skip_warning Samples.hC)).
Proof.
  assert (Hp : page Samples.hC < 1 \/ len Samples.two_pages < page Samples.hC).
  { right. reflexivity. }
  split; [exact Hp|].
  apply (C3_out_of_range_heading_skipped Samples.two_pages [] [Samples.hA]
           Samples.hC [Samples.hB] _ _ Hp).
  reflexivity.
Defined.

(** ** Well-nested outlines *)

Lemma well_nested_snoc prev levels l :
  well_nested prev (levels ++ [l]) =
  well_nested prev levels && (1 <=? l) && (l <=? last_level prev levels + 1).
Proof.
  revert prev. induction levels as [|a levels IH]; intros prev; simpl.
  - unfold last_level. simpl. by rewrite andb_true_r.
  - rewrite IH. unfold last_level. rewrite last_cons.
    destruct (last levels); simpl; by rewrite !andb_assoc.
Qed.

Lemma last_level_snoc prev levels l : last_level prev (levels ++ [l]) = l.
Proof. unfold last_level. by rewrite last_snoc. Qed.

Lemma most_recent_at_app levels extra i k j :
  (i <= length levels)%nat ->
  most_recent_at levels i k j -> most_recent_at (levels ++ extra) i k j.
Proof.
  intros Hi (Hj & Hl & Hlater). split; [done|]. split.
  - rewrite lookup_app_l by lia. done.
  - intros j' Hj'. rewrite lookup_app_l by lia. by apply Hlater.
Qed.

Lemma most_recent_at_snoc_other levels l k j :
  k <> l ->
  most_recent_at levels (length levels) k j ->
  most_recent_at (levels ++ [l]) (S (length levels)) k j.
Proof.
  intros Hk (Hj & Hl & Hlater). split; [lia|]. split.
  - rewrite lookup_app_l by lia. done.
  - intros j' Hj'. destruct (decide (j' = length levels)) as [->|Hne].
    + rewrite list_lookup_middle by done. congruence.
    + rewrite lookup_app_l by lia. apply Hlater. lia.
Qed.

Lemma most_recent_at_snoc_new levels l :
  most_recent_at (levels ++ [l]) (S (length levels)) l (length levels).
Proof.
  split; [lia|]. split; [by rewrite list_lookup_middle|]. intros j' Hj'. lia.
Qed.

Lemma implied_parent_app levels extra i l p :
  (i <= length levels)%nat ->
  implied_parent levels i l p -> implied_parent (levels ++ extra) i l p.
Proof.
  intros Hi [H|(Hl & j & Hp & Hm)]; [by left|right].
  split; [done|]. exists j. split; [done|]. by apply most_recent_at_app.
Qed.

Lemma last_take_lookup {A} (l : list A) n :
  (0 < n <= length l)%nat -> last (take n l) = l !! pred n.
Proof.
  intros Hn. rewrite last_lookup, length_take.
  replace (n `min` length l)%nat with n by lia.
  rewrite lookup_take_lt by lia. done.
Qed.

Lemma nested_state_step reader_pages err hs h stk w :
  nested_state reader_pages err hs stk w ->
  1 <= page h <= len reader_pages ->
  1 <= level h <= last_level 0 (map level hs) + 1 ->
  exists stk' w',
    loop_body h stk w = (Ok stk', w')
    /\ nested_state reader_pages err (hs ++ [h]) stk' w'.
Proof.
  intros (Hpg & Herr & Hn & Hlen & Hs & Hstk & Hitems) Hp Hl.
  set (L := last_level 0 (map level hs)) in *.
  assert (Hlenstk : length stk = Z.to_nat (L + 1)) by (unfold len in Hlen; lia).
  assert (Htake : last (take (Z.to_nat (level h)) stk)
                  = stk !! Z.to_nat (level h - 1)).
  { rewrite last_take_lookup by lia. f_equal. lia. }
  assert (Htop : exists top, stk !! Z.to_nat (level h - 1) = Some top
                   /\ implied_parent (map level hs) (length hs) (level h) top).
  { destruct (decide (level h = 1)) as [E|E].
    - exists None. rewrite E. split; [exact Hs|by left].
    - destruct (Hstk (level h - 1)) as (j & Hj & Hm); [lia|].
      exists (Some j). split; [done|]. right. split; [lia|]. eauto. }
  destruct Htop as (top & Htop & Hpar).
  rewrite (loop_body_attach _ _ _ top);
    [|unfold page_count; by rewrite Hpg|lia|by rewrite Htake].
  eexists _, _. split; [reflexivity|].
  assert (Htl : length (take (Z.to_nat (level h)) stk) = Z.to_nat (level h))
    by (rewrite length_take; lia).
  rewrite Htl, Nat.sub_diag. simpl replicate. simpl app at 1.
  unfold nested_state. rewrite map_app. simpl map. rewrite last_level_snoc.
  rewrite !length_app. simpl length.
  split; [done|]. split; [done|].
  split. { unfold with_item. simpl. rewrite length_app. simpl. lia. }
  split. { rewrite len_app. unfold len. rewrite Htl. simpl. lia. }
  split. { by apply has_sentinel_app, has_sentinel_take; [lia|]. }
  assert (Hml : length (map level hs) = length hs) by apply length_map.
  split.
  - intros k Hk. destruct (decide (k = level h)) as [->|Hne].
    + exists (length hs). split.
      * rewrite lookup_app_r by lia. rewrite Htl, Nat.sub_diag. simpl.
        unfold next_ref. by rewrite Hn.
      * replace (length hs + 1)%nat with (S (length (map level hs))) by lia.
        rewrite <- Hml. apply most_recent_at_snoc_new.
    + destruct (Hstk k) as (j & Hj & Hm); [lia|].
      exists j. split.
      * rewrite lookup_app_l by lia. rewrite lookup_take_lt by lia. done.
      * replace (length hs + 1)%nat with (S (length (map level hs))) by lia.
        apply most_recent_at_snoc_other; [done|]. by rewrite Hml.
  - intros i h' Hi. destruct (decide (i = length hs)) as [->|Hne].
    + rewrite list_lookup_middle in Hi by done. injection Hi as <-.
      exists top. split.
      * unfold with_item. simpl. by rewrite list_lookup_middle.
      * apply implied_parent_app; [lia|done].
    + assert (Hlt : (i < length hs)%nat).
      { apply lookup_lt_Some in Hi. rewrite length_app in Hi. simpl in Hi. lia. }
      rewrite lookup_app_l in Hi by done.
      destruct (Hitems i h' Hi) as (p & Hp' & Hip).
      exists p. split.
      * unfold with_item. simpl. rewrite lookup_app_l by lia. done.
      * apply implied_parent_app; [lia|done].
Qed.

Lemma nested_state_run reader_pages err hs :
  Forall (fun h => 1 <= page h <= len reader_pages) hs ->
  well_nested 0 (map level hs) = true ->
  exists stk w,
    for_headings hs [None] (start_world reader_pages err) = (Ok stk, w)
    /\ nested_state reader_pages err hs stk w.
Proof.
  induction hs as [|h hs IH] using rev_ind; intros Hpages Hwn.
  - exists [None], (start_world reader_pages err). split; [reflexivity|].
    unfold nested_state, last_level. simpl.
    repeat split; try done.
    + intros k Hk. lia.
  - apply Forall_app in Hpages as [Hpages Hh].
    apply Forall_cons in Hh as [Hh _].
    rewrite map_app in Hwn. simpl in Hwn. rewrite well_nested_snoc in Hwn.
    apply andb_prop in Hwn as [Hwn Hl2]. apply andb_prop in Hwn as [Hwn Hl1].
    destruct (IH Hpages Hwn) as (stk & w & Erun & Hst).
    destruct (nested_state_step reader_pages err hs h stk w Hst Hh)
      as (stk' & w' & Ebody & Hst'); [lia|].
    exists stk', w'. split; [|done].
    rewrite (for_headings_snoc _ _ _ _ _ _ Erun). done.
Qed.

Lemma item_depth_level hs items :
  (forall i h, hs !! i = Some h ->
     exists p, items !! i = Some (mkOutlineItem (title h) (page h - 1) p)
               /\ implied_parent (map level hs) i (level h) p) ->
  forall fuel i h,
    (i < fuel)%nat -> hs !! i = Some h -> item_depth fuel items i = level h.
Proof.
  intros Hitems fuel. induction fuel as [|fuel IH]; intros i h Hi Hh; [lia|].
  destruct (Hitems i h Hh) as (p & Hit & Hpar). simpl. rewrite Hit. simpl.
  destruct Hpar as [[Hl ->]|(Hl & j & -> & Hj & Hlv & _)]; [lia|].
  rewrite list_lookup_fmap in Hlv.
  destruct (hs !! j) as [hj|] eqn:Ej; [|done]. simpl in Hlv.
  rewrite (IH j hj) by (done || lia). injection Hlv as Hlv. lia.
Qed.

(** C1. For an outline whose headings are all on pages 1 to [N] and whose
    levels are well nested (the first one is 1, each other one is at
    least 1 and at most one more than the one before), the builder
    returns without a warning, creates exactly one outline entry per
    heading, in the order of the headings, with the heading's title and
    its page as a 0-based index, and each entry is the child of the most
    recent entry whose level is one less, the entries of level 1 being at
    the top; the depth of an entry in the outline is the level of its
    heading. *)
Theorem C1_well_nested_outline reader_pages err outline :
  Forall (fun h => 1 <= page h <= len reader_pages) (headings outline) ->
  well_nested 0 (map level (headings outline)) = true ->
  exists stk w,
    add_bookmarks_to_pdf reader_pages outline err = (Ok stk, w)
    /\ stderr w = err
    /\ length (writer_outline (writer w)) = length (headings outline)
    /\ forall i h, headings outline !! i = Some h ->
         exists p,
           writer_outline (writer w) !! i
             = Some (mkOutlineItem (title h) (page h - 1) p)
           /\ implied_parent (map level (headings outline)) i (level h) p
           /\ item_depth (length (writer_outline (writer w)))
                (writer_outline (writer w)) i = level h.
Proof.
  intros Hpages Hwn. rewrite add_bookmarks_to_pdf_loop.
  destruct (nested_state_run reader_pages err (headings outline) Hpages Hwn)
    as (stk & w & Erun & _ & Herr & Hn & _ & _ & _ & Hitems).
  exists stk, w. split; [done|]. split; [done|]. split; [done|].
  intros i h Hi. destruct (Hitems i h Hi) as (p & Hit & Hpar).
  exists p. split; [done|]. split; [done|].
  apply (item_depth_level (headings outline)); [done| |done].
  rewrite Hn. by apply lookup_lt_Some in Hi.
Qed.

Lemma C1_well_nested_outline_witness :
  Forall (fun h => 1 <= page h <= len Samples.five_pages)
    (headings Samples.nested_outline)
  /\ well_nested 0 (map level (headings Samples.nested_outline)) = true
  /\ exists stk w,
       add_bookmarks_to_pdf Samples.five_pages Samples.nested_outline []
         = (Ok stk, w)
       /\ stderr w = []
       /\ length (writer_outline (writer w))
          = length (headings Samples.nested_outline).
Proof.
  assert (Hp : Forall (fun h => 1 <= page h <= len Samples.five_pages)
                 (headings Samples.nested_outline)).
  { repeat constructor; vm_compute; discriminate. }
  split; [exact Hp|]. split; [reflexivity|].
  destruct (C1_well_nested_outline Samples.five_pages [] Samples.nested_outline
              Hp eq_refl) as (stk & w & E & He & Hn & _).
  exists stk, w. split; [exact E|]. split; [exact He|exact Hn].
Defined.

(** ** Level skips *)

Lemma loop_body_nonempty h stk w stk' w' :
  loop_body h stk w = (Ok stk', w') -> stk <> [] -> stk' <> [].
Proof.
  unfold loop_body, bind, num_pages, lift, print_stderr, ret, add_outline_item.
  destruct (_ || _); cbn beta iota.
  { intros [= <- _]. done. }
  destruct (pop_loop _ _ _) as [s1| |]; [|done..].
  destruct (get_parent s1) as [parent| |]; [|done..].
  destruct (pad_loop _ _ _) as [s2| |]; [|done..].
  destruct (_ =? _); cbn beta iota.
  { intros [= <- _] _. by destruct s2. }
  unfold py_setitem. destruct (py_index _ _) as [n| |] eqn:E; [|done..].
  intros [= <- _] _ Hnil.
  apply (f_equal length) in Hnil. rewrite length_insert in Hnil.
  unfold py_index in E. destruct (_ || _) eqn:E' in E; [done|].
  destruct s2; [|done]. unfold len in E'. simpl in E'.
  destruct (level h <? 0) eqn:E''; lia.
Qed.

Lemma for_headings_nonempty hs stk w stk' w' :
  for_headings hs stk w = (Ok stk', w') -> stk <> [] -> stk' <> [].
Proof.
  revert stk w. induction hs as [|h hs IH]; intros stk w; simpl.
  - intros [= <- _]. done.
  - unfold bind. destruct (loop_body h stk w) as [[s1| |] w1] eqn:E; [|done..].
    intros Hrun Hne. apply (IH s1 w1 Hrun).
    by apply (loop_body_nonempty h stk w s1 w1).
Qed.

(** A heading deeper than every level the stack holds: nothing is popped,
    the entry goes under the top of the stack, and the stack is padded
    with copies of that top. *)
Lemma loop_body_deeper h stk w top :
  1 <= page h <= page_count w ->
  last stk = Some top ->
  len stk <= level h ->
  loop_body h stk w =
  (Ok (stk ++ replicate (Z.to_nat (level h - len stk)) top ++ [Some (next_ref w)]),
   with_item w (mkOutlineItem (title h) (page h - 1) top)).
Proof.
  intros Hp Ht Hl.
  assert (Htk : take (Z.to_nat (level h)) stk = stk).
  { apply take_ge. unfold len in Hl. lia. }
  rewrite (loop_body_attach _ _ _ top);
    [|done|pose proof (len_nonneg stk); lia|by rewrite Htk].
  rewrite Htk.
  replace (Z.to_nat (level h) - length stk)%nat
    with (Z.to_nat (level h - len stk)) by (unfold len in *; lia).
  reflexivity.
Qed.

(** C2. When a heading [h] follows a heading [hp] and skips levels (its
    level is more than one above that of [hp]), both on pages of the
    document, the builder does not raise and adds exactly two entries, one
    for [hp] and one for [h]: no entry is made up for the missing levels.
    The entry of [h] is a child of the entry of [hp], the deepest entry
    there is, and the stack is padded with references to that entry at
    the missing depths, below the new one, so that it has [level h + 1]
    entries.  The loop then goes on with the rest of the outline. *)
Theorem C2_level_skip_attaches_to_ancestor reader_pages err pre hp h post stk w :
  for_headings pre [None] (start_world reader_pages err) = (Ok stk, w) ->
  1 <= page hp <= len reader_pages ->
  1 <= page h <= len reader_pages ->
  1 <= level hp ->
  level hp + 1 < level h ->
  exists s parent,
    let node_p := next_ref w in
    let item_p := mkOutlineItem (title hp) (page hp - 1) parent in
    let item_h := mkOutlineItem (title h) (page h - 1) (Some node_p) in
    let stk1 := s ++ [Some node_p] in
    let stk2 := stk1 ++ replicate (Z.to_nat (level h - level hp - 1)) (Some node_p)
                     ++ [Some (S node_p)] in
    let w1 := with_item w item_p in
    let w2 := with_item w1 item_h in
    loop_body hp stk w = (Ok stk1, w1)
    /\ len s = level hp
    /\ loop_body h stk1 w1 = (Ok stk2, w2)
    /\ len stk2 = level h + 1
    /\ writer_outline (writer w2) = writer_outline (writer w) ++ [item_p; item_h]
    /\ stderr w2 = stderr w
    /\ for_headings (pre ++ hp :: h :: post) [None] (start_world reader_pages err)
       = for_headings post stk2 w2.
Proof.
  intros Hpre Hpp Hph Hlp Hskip.
  assert (Hne : stk <> []) by (by apply (for_headings_nonempty _ _ _ _ _ Hpre)).
  destruct (for_headings_emits _ _ _ _ _ Hpre) as (ws0 & _ & Hpg).
  destruct (take_level_last stk (level hp) Hne Hlp) as [top Ht].
  set (tk := take (Z.to_nat (level hp)) stk) in *.
  set (s := tk ++ replicate (Z.to_nat (level hp) - length tk) top).
  assert (Hlen_tk : (length tk <= Z.to_nat (level hp))%nat).
  { subst tk. rewrite length_take. lia. }
  assert (Hlen_s : len s = level hp).
  { subst s. rewrite len_app. unfold len. rewrite length_replicate. lia. }
  exists s, top. cbv zeta.
  assert (E1 : loop_body hp stk w =
               (Ok (s ++ [Some (next_ref w)]),
                with_item w (mkOutlineItem (title hp) (page hp - 1) top))).
  { rewrite (loop_body_attach _ _ _ top);
      [|unfold page_count; by rewrite Hpg|lia|done].
    fold tk. subst s. by rewrite <- app_assoc. }
  assert (E2 : loop_body h (s ++ [Some (next_ref w)])
                 (with_item w (mkOutlineItem (title hp) (page hp - 1) top)) =
               (Ok ((s ++ [Some (next_ref w)])
                      ++ replicate (Z.to_nat (level h - level hp - 1))
                           (Some (next_ref w))
                      ++ [Some (S (next_ref w))]),
                with_item
                  (with_item w (mkOutlineItem (title hp) (page hp - 1) top))
                  (mkOutlineItem (title h) (page h - 1) (Some (next_ref w))))).
  { rewrite (loop_body_deeper _ _ _ (Some (next_ref w)));
      [|unfold page_count; rewrite with_item_pages; by rewrite Hpg
       |by rewrite last_snoc
       |rewrite len_app; unfold len at 2; simpl; lia].
    rewrite len_app, Hlen_s. unfold len. simpl length.
    replace (level h - (level hp + Z.of_nat 1)) with (level h - level hp - 1) by lia.
    unfold next_ref at 3, with_item. simpl. rewrite length_app. simpl.
    replace (length (writer_outline (writer w)) + 1)%nat
      with (S (next_ref w)) by (unfold next_ref; lia).
    reflexivity. }
  split; [exact E1|]. split; [exact Hlen_s|]. split; [exact E2|].
  split. { rewrite !len_app, Hlen_s. unfold len. rewrite length_replicate.
           simpl. lia. }
  split. { unfold with_item. simpl. by rewrite <- app_assoc. }
  split; [reflexivity|].
  rewrite (for_headings_after pre _ _ _ _ _ Hpre). simpl.
  unfold bind at 1. rewrite E1. unfold bind at 1. rewrite E2. reflexivity.
Qed.

Lemma C2_level_skip_attaches_to_ancestor_witness :
  exists s parent,
    loop_body Samples.hA [None] (start_world Samples.two_pages [])
      = (Ok (s ++ [Some 0%nat]),
         with_item (start_world Samples.two_pages [])
                   (mkOutlineItem (title Samples.hA) 0 parent))
    /\ loop_body Samples.hB (s ++ [Some 0%nat])
         (with_item (start_world Samples.two_pages [])
                    (mkOutlineItem (title Samples.hA) 0 parent))
       = (Ok ((s ++ [Some 0%nat]) ++ [Some 0%nat] ++ [Some 1%nat]),
          with_item
            (with_item (start_world Samples.two_pages [])
                       (mkOutlineItem (title Samples.hA) 0 parent))
            (mkOutlineItem (title Samples.hB) 0 (Some 0%nat))).
Proof.
  destruct (C2_level_skip_attaches_to_ancestor Samples.two_pages [] []
              Samples.hA Samples.hB [Samples.hC]
              [None] (start_world Samples.two_pages []) eq_refl)
    as (s & parent & E1 & _ & E2 & _);
    [vm_compute; split; discriminate
    |vm_compute; split; discriminate
    |vm_compute; discriminate
    |reflexivity|].
  exists s, parent. split; [exact E1|exact E2].
Defined.

(** ** Validation of the headings *)

Lemma Heading_validate_iff h :
  Heading_validate h = true <-> 1 <= level h <= 6 /\ 1 <= page h.
Proof. unfold Heading_validate. lia. Qed.

Lemma DocumentOutline_validate_rejects pre h post :
  Heading_validate h = false ->
  DocumentOutline_validate (pre ++ h :: post) = Raise ValidationError.
Proof.
  intros Hh. unfold DocumentOutline_validate.
  rewrite forallb_app. simpl. rewrite Hh, andb_false_r. reflexivity.
Qed.

Lemma analyze_validate_rejects pre h post :
  Heading_validate h = false ->
  analyze_validate (pre ++ h :: post) = Raise RuntimeError.
Proof.
  intros Hh. unfold analyze_validate.
  by rewrite DocumentOutline_validate_rejects.
Qed.

(** ** The builder on validated headings *)

Lemma for_headings_no_pages hs stk w :
  writer_pages (writer w) = [] ->
  for_headings hs stk w =
  (Ok stk, mkWorld (writer w) (stderr w ++ map skip_warning hs)).
Proof.
  revert w. induction hs as [|h hs IH]; intros w Hpg; simpl.
  - unfold ret. rewrite app_nil_r. by destruct w.
  - unfold bind. rewrite loop_body_skip.
    + rewrite IH by done. simpl. by rewrite <- app_assoc.
    + unfold page_count, len. rewrite Hpg. simpl.
      destruct (Z_le_dec 1 (page h)); [right|left]; lia.
Qed.

(** C4, as the specification states it, fails: with a document of no
    pages ([N = 0]) and an outline of one heading the builder does not
    raise; it returns, with the heading skipped and a warning printed. *)
Lemma C4_no_pages_counterexample :
  ~ (forall outline : DocumentOutline,
       headings outline <> [] ->
       exists e w, add_bookmarks_to_pdf [] outline [] = (Raise e, w)).
Proof.
  intros H.
  destruct (H (mkDocumentOutline [Samples.hA])) as (e & w & E); [done|].
  vm_compute in E. discriminate E.
Qed.

(** C4, amended.  The builder has no check on the page count.  On
    headings whose level is at least 1, which is what validation lets
    through, it returns without raising whatever the page count is.  With
    no page at all it returns too, for any outline: every heading is
    skipped with its warning, and the outline of the document stays
    empty. *)
Theorem C4_builder_returns reader_pages err outline :
  (Forall (fun h => 1 <= level h) (headings outline) ->
   exists stk w, add_bookmarks_to_pdf reader_pages outline err = (Ok stk, w))
  /\ add_bookmarks_to_pdf [] outline err
     = (Ok [None],
        mkWorld new_writer (err ++ map skip_warning (headings outline))).
Proof.
  split.
  - intros Hall. rewrite add_bookmarks_to_pdf_loop.
    destruct (for_headings_sentinel (headings outline) [None]
                (start_world reader_pages err) Hall)
      as (stk & w & E & _); [done|].
    eauto.
  - rewrite add_bookmarks_to_pdf_loop. by rewrite for_headings_no_pages.
Qed.

Lemma C4_builder_returns_witness :
  Forall (fun h => 1 <= level h) (headings Samples.skip_outline)
  /\ exists stk w,
       add_bookmarks_to_pdf Samples.two_pages Samples.skip_outline []
         = (Ok stk, w).
Proof.
  assert (Hall : Forall (fun h => 1 <= level h) (headings Samples.skip_outline)).
  { repeat constructor; vm_compute; discriminate. }
  split; [exact Hall|].
  exact (proj1 (C4_builder_returns Samples.two_pages [] Samples.skip_outline) Hall).
Defined.

(** C5, as the specification states it, fails: a heading of level 7, a
    positive level, is not accepted by the data model, and the outline
    that holds it next to a valid heading is rejected as a whole. *)
Lemma C5_level_above_six_counterexample :
  0 < level Samples.h_deep
  /\ Heading_validate Samples.h_deep = false
  /\ Heading_validate Samples.hA = true
  /\ DocumentOutline_validate [Samples.hA; Samples.h_deep] = Raise ValidationError
  /\ analyze_pdf_with_llm (fun _ => Ok [Samples.hA; Samples.h_deep])
       Samples.short_pages
     = Raise RuntimeError.
Proof. repeat split. Qed.

(** C5, amended.  A heading of positive level, on a page numbered 1 or
    more, is accepted by the data model exactly when its level is at most
    6; a level above 6 fails the validation of the outline that holds it,
    and with it the whole analysis.  The builder itself sets no upper
    bound: given a heading of any positive level on a page of the
    document, at any point of a run, it attaches one entry for it and
    returns a stack of [level h + 1] entries. *)
Theorem C5_positive_levels h :
  1 <= level h ->
  (1 <= page h -> (Heading_validate h = true <-> level h <= 6))
  /\ (6 < level h ->
      forall pre post,
        DocumentOutline_validate (pre ++ h :: post) = Raise ValidationError
        /\ forall completion pages,
             completion (prepare_document_text pages) = Ok (pre ++ h :: post) ->
             analyze_pdf_with_llm completion pages = Raise RuntimeError)
  /\ (forall reader_pages err pre stk w,
        for_headings pre [None] (start_world reader_pages err) = (Ok stk, w) ->
        1 <= page h <= len reader_pages ->
        exists stk' parent,
          loop_body h stk w
            = (Ok stk', with_item w (mkOutlineItem (title h) (page h - 1) parent))
          /\ len stk' = level h + 1).
Proof.
  intros Hl. split; [|split].
  - intros Hp. rewrite Heading_validate_iff. lia.
  - intros Hdeep pre post.
    assert (Hv : Heading_validate h = false).
    { destruct (Heading_validate h) eqn:E; [|done].
      apply Heading_validate_iff in E. lia. }
    split; [by apply DocumentOutline_validate_rejects|].
    intros completion pages Hc. unfold analyze_pdf_with_llm. rewrite Hc.
    by apply analyze_validate_rejects.
  - intros reader_pages err pre stk w Hpre Hp.
    assert (Hne : stk <> []) by (by apply (for_headings_nonempty _ _ _ _ _ Hpre)).
    destruct (for_headings_emits _ _ _ _ _ Hpre) as (ws0 & _ & Hpg).
    destruct (take_level_last stk (level h) Hne Hl) as [top Ht].
    eexists _, top. split.
    + apply loop_body_attach; [unfold page_count; by rewrite Hpg|lia|done].
    + rewrite !len_app. unfold len. rewrite length_replicate, length_take.
      simpl. lia.
Qed.

Lemma C5_positive_levels_witness :
  1 <= level Samples.h_deep
  /\ DocumentOutline_validate [Samples.hA; Samples.h_deep] = Raise ValidationError
  /\ exists stk' parent,
       loop_body Samples.h_deep [None] (start_world Samples.two_pages [])
         = (Ok stk',
            with_item (start_world Samples.two_pages [])
                      (mkOutlineItem (title Samples.h_deep) 0 parent))
       /\ len stk' = 8.
Proof.
  assert (Hl : 1 <= level Samples.h_deep) by (vm_compute; discriminate).
  split; [exact Hl|].
  destruct (C5_positive_levels Samples.h_deep Hl) as (_ & Hrej & Hbuild).
  split.
  - apply (proj1 (Hrej ltac:(reflexivity) [Samples.hA] [])).
  - apply (Hbuild Samples.two_pages [] [] [None] _ eq_refl).
    vm_compute. split; discriminate.
Defined.

(** C6, as the specification states it, fails: a heading of level 0 is
    not taken as a heading of level 1.  The data model rejects it, and the
    outline with it.  The builder does not clamp either: after an entry
    made for level 0 a heading of level 1 becomes its child, where it
    would be its sibling after an entry of level 1; on a negative level
    the first loop pops the empty stack. *)
Lemma C6_no_clamping_counterexample :
  level Samples.h_zero <= 0
  /\ Heading_validate Samples.h_zero = false
  /\ analyze_pdf_with_llm (fun _ => Ok [Samples.h_zero]) Samples.short_pages
     = Raise RuntimeError
  /\ writer_outline (writer (snd (add_bookmarks_to_pdf Samples.two_pages
         (mkDocumentOutline [Samples.h_zero; Samples.hA]) [])))
     <> writer_outline (writer (snd (add_bookmarks_to_pdf Samples.two_pages
         (mkDocumentOutline [Samples.h_zero_as_one; Samples.hA]) [])))
  /\ fst (add_bookmarks_to_pdf Samples.two_pages
            (mkDocumentOutline [Samples.h_negative]) [])
     = Raise IndexError.
Proof.
  split; [vm_compute; discriminate|].
  split; [reflexivity|]. split; [reflexivity|].
  split; [vm_compute; discriminate|reflexivity].
Qed.

(** C6, amended.  A heading whose level is 0 or negative fails the
    validation of [Heading] (the level must be at least 1), and the
    outline that holds it is rejected as a whole, so that the analysis
    fails and no entry is built for it; the level is not clamped. *)
Theorem C6_nonpositive_level_rejected h pre post :
  level h <= 0 ->
  Heading_validate h = false
  /\ DocumentOutline_validate (pre ++ h :: post) = Raise ValidationError
  /\ forall completion pages,
       completion (prepare_document_text pages) = Ok (pre ++ h :: post) ->
       analyze_pdf_with_llm completion pages = Raise RuntimeError.
Proof.
  intros Hl.
  assert (Hv : Heading_validate h = false).
  { destruct (Heading_validate h) eqn:E; [|done].
    apply Heading_validate_iff in E. lia. }
  split; [done|].
  split; [by apply DocumentOutline_validate_rejects|].
  intros completion pages Hc. unfold analyze_pdf_with_llm. rewrite Hc.
  by apply analyze_validate_rejects.
Qed.

Lemma C6_nonpositive_level_rejected_witness :
  level Samples.h_zero <= 0
  /\ Heading_validate Samples.h_zero = false
  /\ DocumentOutline_validate ([Samples.hA] ++ Samples.h_zero :: [Samples.hB])
     = Raise ValidationError
  /\ analyze_pdf_with_llm
       (fun _ => Ok ([Samples.hA] ++ Samples.h_zero :: [Samples.hB]))
       Samples.short_pages
     = Raise RuntimeError.
Proof.
  assert (Hl : level Samples.h_zero <= 0) by (vm_compute; discriminate).
  split; [exact Hl|].
  destruct (C6_nonpositive_level_rejected Samples.h_zero [Samples.hA]
              [Samples.hB] Hl) as (Hv & Hd & Ha).
  split; [exact Hv|]. split; [exact Hd|].
  apply Ha. reflexivity.
Defined.

(** C8, as the specification states it, fails: a heading whose title is
    the empty string passes validation, alone and in an outline. *)
Lemma C8_empty_title_counterexample :
  title Samples.h_untitled = EmptyString
  /\ Heading_validate Samples.h_untitled = true
  /\ analyze_pdf_with_llm (fun _ => Ok [Samples.h_untitled]) Samples.short_pages
     = Ok (mkDocumentOutline [Samples.h_untitled]).
Proof. repeat split. Qed.

(** C8, amended.  The title of a [Heading] is a text with no constraint on
    its length: validation does not look at it, and a heading is accepted
    exactly when its level is from 1 to 6 and its page at least 1, the
    empty title included. *)
Theorem C8_title_unconstrained t l p :
  Heading_validate (mkHeading t l p) = Heading_validate (mkHeading EmptyString l p)
  /\ (Heading_validate (mkHeading t l p) = true <-> 1 <= l <= 6 /\ 1 <= p).
Proof.
  split; [reflexivity|]. apply (Heading_validate_iff (mkHeading t l p)).
Qed.

(** ** The text sent for classification *)

Lemma substring_0_length n s :
  (n <= String.length s)%nat -> String.length (String.substring 0 n s) = n.
Proof.
  revert n. induction s as [|c s IH]; intros [|n] Hn; simpl in *; try lia.
  rewrite IH; lia.
Qed.

Lemma substring_0_prefix n s :
  exists tail, s = (String.substring 0 n s ++ tail)%string.
Proof.
  revert n. induction s as [|c s IH]; intros [|n]; simpl.
  - by exists EmptyString.
  - by exists EmptyString.
  - by exists (String c s).
  - destruct (IH n) as [tail Ht]. exists tail. by rewrite <- Ht.
Qed.

(** C9. When the page-delimited text of the document is longer than
    50000 characters, the text sent for classification is its first 50000
    characters (a prefix of the text, of length 50000) followed by the
    truncation marker; when it is not longer, the text is sent as it is. *)
Theorem C9_text_truncated_to_budget pages :
  let text := concat_pages EmptyString pages in
  max_chars = 50000
  /\ (max_chars < len_str text ->
      prepare_document_text pages
        = (str_take 50000 text ++ LF ++ LF ++ "[Document truncated...]")%string
      /\ len_str (str_take 50000 text) = 50000
      /\ exists tail, text = (str_take 50000 text ++ tail)%string)
  /\ (len_str text <= max_chars -> prepare_document_text pages = text).
Proof.
  intros text. split; [reflexivity|].
  unfold prepare_document_text, truncate_text. fold text. split.
  - intros Hlong. destruct (len_str text >? max_chars) eqn:E; [|lia].
    split; [reflexivity|]. split.
    + unfold str_take, len_str in *. rewrite substring_0_length; unfold max_chars in *; lia.
    + apply substring_0_prefix.
  - intros Hshort. destruct (len_str text >? max_chars) eqn:E; [lia|done].
Qed.

Lemma C9_text_truncated_to_budget_witness :
  (max_chars < len_str (concat_pages EmptyString Samples.long_pages)
   /\ prepare_document_text Samples.long_pages
      = (str_take 50000 (concat_pages EmptyString Samples.long_pages)
           ++ LF ++ LF ++ "[Document truncated...]")%string)
  /\ (len_str (concat_pages EmptyString Samples.short_pages) <= max_chars
      /\ prepare_document_text Samples.short_pages
         = concat_pages EmptyString Samples.short_pages).
Proof.
  assert (Hlong : max_chars < len_str (concat_pages EmptyString Samples.long_pages)).
  { vm_compute. reflexivity. }
  assert (Hshort : len_str (concat_pages EmptyString Samples.short_pages) <= max_chars).
  { vm_compute. discriminate. }
  split.
  - split; [exact Hlong|].
    exact (proj1 (proj1 (proj2 (C9_text_truncated_to_budget Samples.long_pages)) Hlong)).
  - split; [exact Hshort|].
    exact (proj2 (proj2 (C9_text_truncated_to_budget Samples.short_pages)) Hshort).
Defined.

(** ** Outlines of validated headings, in any order of levels *)

Lemma in_range_iff n h : in_range n h = true <-> 1 <= page h <= n.
Proof. unfold in_range. lia. Qed.

Lemma kept_snoc n hs h :
  kept n (hs ++ [h]) = if in_range n h then kept n hs ++ [h] else kept n hs.
Proof.
  unfold kept. rewrite List.filter_app. simpl.
  destruct (in_range n h); [done|by rewrite app_nil_r].
Qed.

Lemma skipped_snoc n hs h :
  skipped n (hs ++ [h]) =
  if in_range n h then skipped n hs else skipped n hs ++ [h].
Proof.
  unfold skipped. rewrite List.filter_app. simpl.
  destruct (in_range n h); simpl; [by rewrite app_nil_r|done].
Qed.

Lemma replicate_lookup_Some {A} (n i : nat) (x y : A) :
  replicate n x !! i = Some y -> y = x.
Proof. intros H. apply lookup_replicate in H as [-> _]. done. Qed.

Lemma built_state_step reader_pages err hs h stk w :
  built_state reader_pages err hs stk w ->
  1 <= level h ->
  exists stk' w',
    loop_body h stk w = (Ok stk', w')
    /\ built_state reader_pages err (hs ++ [h]) stk' w'.
Proof.
  intros (Hpg & Herr & Hent & Hs & Hstk & Hpar) Hl.
  unfold built_state. rewrite kept_snoc, skipped_snoc.
  destruct (in_range (len reader_pages) h) eqn:Hin.
  - apply in_range_iff in Hin.
    pose proof (has_sentinel_nonempty _ Hs) as Hne.
    destruct (take_level_last stk (level h) Hne Hl) as [top Ht].
    rewrite (loop_body_attach _ _ _ top);
      [|unfold page_count; by rewrite Hpg|lia|done].
    eexists _, _. split; [reflexivity|]. cbv zeta.
    set (ks := kept (len reader_pages) hs) in *.
    set (tk := take (Z.to_nat (level h)) stk) in *.
    pose proof (Forall2_length _ _ _ Hent) as Hlen.
    assert (Htk : (length tk <= Z.to_nat (level h))%nat)
      by (subst tk; rewrite length_take; lia).
    (* the top of the truncated stack sits at an index below the level *)
    assert (Htop : forall j, top = Some j ->
              exists hj, ks !! j = Some hj
                         /\ level hj <= Z.of_nat (length tk) - 1).
    { intros j ->. rewrite last_lookup in Ht.
      assert (Hk : (pred (length tk) < length tk)%nat)
        by (apply lookup_lt_Some in Ht; done).
      subst tk. rewrite lookup_take_lt in Ht by (rewrite length_take in Hk; lia).
      destruct (Hstk _ _ Ht) as (hj & Hj & Hlv). exists hj. split; [done|].
      lia. }
    split; [done|]. split; [done|].
    split. { unfold with_item. simpl. apply Forall2_app; [done|].
             constructor; [by split|constructor]. }
    split. { by apply has_sentinel_app, has_sentinel_take. }
    split.
    + intros k j Hk.
      destruct (decide (k < length tk)%nat) as [Hlt|Hge].
      * rewrite lookup_app_l in Hk by done. subst tk.
        rewrite lookup_take_lt in Hk by (rewrite length_take in Hlt; lia).
        destruct (Hstk _ _ Hk) as (hj & Hj & Hlv). exists hj.
        split; [|done]. rewrite lookup_app_l; [done|by apply lookup_lt_Some in Hj].
      * rewrite lookup_app_r in Hk by lia.
        destruct (decide (k - length tk < Z.to_nat (level h) - length tk)%nat)
          as [Hlt2|Hge2].
        -- rewrite lookup_app_l in Hk by (rewrite length_replicate; done).
           apply replicate_lookup_Some in Hk.
           destruct (Htop j) as (hj & Hj & Hlv); [done|]. exists hj.
           split; [|lia]. rewrite lookup_app_l; [done|by apply lookup_lt_Some in Hj].
        -- rewrite lookup_app_r in Hk by (rewrite length_replicate; lia).
           rewrite length_replicate in Hk.
           destruct (k - length tk - (Z.to_nat (level h) - length tk))%nat
             as [|m] eqn:Em; [|done].
           simpl in Hk. injection Hk as <-. exists h. split.
           ++ unfold next_ref. rewrite Hlen. by rewrite list_lookup_middle.
           ++ lia.
    + intros i it h' j Hi Hh' Hj. unfold with_item in Hi. simpl in Hi.
      destruct (decide (i < length ks)%nat) as [Hlt|Hge].
      * rewrite lookup_app_l in Hi by lia. rewrite lookup_app_l in Hh' by done.
        destruct (Hpar i it h' j Hi Hh' Hj) as (Hji & hj & Hhj & Hlv).
        split; [done|]. exists hj. split; [|done].
        rewrite lookup_app_l; [done|by apply lookup_lt_Some in Hhj].
      * assert (i = length ks) as ->.
        { apply lookup_lt_Some in Hh'. rewrite length_app in Hh'. simpl in Hh'. lia. }
        rewrite list_lookup_middle in Hh' by done. injection Hh' as <-.
        rewrite list_lookup_middle in Hi by done. injection Hi as <-.
        simpl in Hj. destruct (Htop j Hj) as (hj & Hhj & Hlv).
        split; [by apply lookup_lt_Some in Hhj|].
        exists hj. split; [|lia].
        rewrite lookup_app_l; [done|by apply lookup_lt_Some in Hhj].
  - rewrite loop_body_skip.
    2:{ unfold page_count. rewrite Hpg.
        destruct (Z_le_dec 1 (page h)), (Z_le_dec (page h) (len reader_pages));
          try (left; lia); try (right; lia).
        assert (in_range (len reader_pages) h = true) by (apply in_range_iff; lia).
        congruence. }
    eexists _, _. split; [reflexivity|]. cbv zeta.
    split; [done|].
    split. { unfold with_warning. simpl. rewrite Herr, map_app. simpl.
             by rewrite <- app_assoc. }
    done.
Qed.

Lemma built_state_run reader_pages err hs :
  Forall (fun h => 1 <= level h) hs ->
  exists stk w,
    for_headings hs [None] (start_world reader_pages err) = (Ok stk, w)
    /\ built_state reader_pages err hs stk w.
Proof.
  induction hs as [|h hs IH] using rev_ind; intros Hall.
  - exists [None], (start_world reader_pages err). split; [reflexivity|].
    unfold built_state. simpl. rewrite app_nil_r.
    split; [done|]. split; [done|]. split; [constructor|]. split; [done|].
    split.
    + intros [|k] j Hk; simpl in Hk; [done|]. by rewrite lookup_nil in Hk.
    + intros i it h j Hi. by rewrite lookup_nil in Hi.
  - apply Forall_app in Hall as [Hall Hh]. apply Forall_cons in Hh as [Hh _].
    destruct (IH Hall) as (stk & w & Erun & Hst).
    destruct (built_state_step reader_pages err hs h stk w Hst Hh)
      as (stk' & w' & Ebody & Hst').
    exists stk', w'. split; [|done].
    by rewrite (for_headings_snoc _ _ _ _ _ _ Erun).
Qed.

Lemma entry_of_titles items ks :
  Forall2 entry_of items ks ->
  map item_title items = map title ks
  /\ map item_page items = map (fun h => page h - 1) ks.
Proof.
  induction 1 as [|it h items ks [Ht Hp] _ [IH1 IH2]]; simpl; [done|].
  by rewrite Ht, Hp, IH1, IH2.
Qed.

Lemma kept_in_range n hs : Forall (fun h => 1 <= page h <= n) (kept n hs).
Proof.
  unfold kept. induction hs as [|h hs IH]; simpl; [constructor|].
  destruct (in_range n h) eqn:E; [|done].
  constructor; [by apply in_range_iff|done].
Qed.

Lemma kept_levels n hs :
  Forall (fun h => 1 <= level h) hs -> Forall (fun h => 1 <= level h) (kept n hs).
Proof.
  unfold kept. induction 1 as [|h hs Hh _ IH]; simpl; [constructor|].
  destruct (in_range n h); [by constructor|done].
Qed.

(** For an outline whose levels are all at least 1, whatever their order
    and whatever the pages, the builder returns: the document keeps its
    pages, the outline has one entry for each heading on a page of the
    document and none for the others, in the order of the headings, with
    the heading's title and its page as an index that exists in the
    document, and the error stream gets one warning for each heading left
    out, in order. *)
Theorem builder_entries_and_warnings reader_pages err outline :
  Forall (fun h => 1 <= level h) (headings outline) ->
  let n := len reader_pages in
  exists stk w,
    add_bookmarks_to_pdf reader_pages outline err = (Ok stk, w)
    /\ writer_pages (writer w) = reader_pages
    /\ map item_title (writer_outline (writer w))
       = map title (kept n (headings outline))
    /\ map item_page (writer_outline (writer w))
       = map (fun h => page h - 1) (kept n (headings outline))
    /\ Forall (fun it => 0 <= item_page it < n) (writer_outline (writer w))
    /\ stderr w = err ++ map skip_warning (skipped n (headings outline)).
Proof.
  intros Hall n. rewrite add_bookmarks_to_pdf_loop.
  destruct (built_state_run reader_pages err (headings outline) Hall)
    as (stk & w & Erun & Hpg & Herr & Hent & _).
  exists stk, w. destruct (entry_of_titles _ _ Hent) as [Ht Hp].
  repeat (split; [done|]). split; [|done].
  pose proof (kept_in_range n (headings outline)) as Hr.
  clear -Hent Hr. fold n in Hent.
  induction Hent as [|it h items ks [_ Hp] _ IH]; [constructor|].
  apply Forall_cons in Hr as [Hh Hr]. constructor; [lia|by apply IH].
Qed.

Lemma builder_entries_and_warnings_witness :
  Forall (fun h => 1 <= level h) (headings Samples.skip_outline)
  /\ exists stk w,
       add_bookmarks_to_pdf Samples.two_pages Samples.skip_outline [] = (Ok stk, w)
       /\ map item_title (writer_outline (writer w))
          = map title [Samples.hA; Samples.hB]
       /\ stderr w = [] ++ map skip_warning [Samples.hC].
Proof.
  assert (Hall : Forall (fun h => 1 <= level h) (headings Samples.skip_outline)).
  { repeat constructor; vm_compute; discriminate. }
  split; [exact Hall|].
  destruct (builder_entries_and_warnings Samples.two_pages [] Samples.skip_outline Hall)
    as (stk & w & E & _ & Ht & _ & _ & He).
  exists stk, w. split; [exact E|]. split; [exact Ht|exact He].
Defined.

Lemma item_depth_bounded items ks :
  length items = length ks ->
  Forall (fun h => 1 <= level h) ks ->
  (forall i it h j,
     items !! i = Some it -> ks !! i = Some h -> item_parent it = Some j ->
     (j < i)%nat /\ exists hj, ks !! j = Some hj /\ level hj < level h) ->
  forall fuel i h,
    (i < fuel)%nat -> ks !! i = Some h ->
    1 <= item_depth fuel items i <= level h.
Proof.
  intros Hlen Hlv Hpar fuel.
  induction fuel as [|fuel IH]; intros i h Hi Hh; [lia|].
  assert (Hl : 1 <= level h).
  { by apply (Forall_lookup_1 _ _ _ _ Hlv Hh). }
  destruct (items !! i) as [it|] eqn:Eit.
  2:{ apply lookup_ge_None in Eit. apply lookup_lt_Some in Hh. lia. }
  simpl. rewrite Eit. destruct (item_parent it) as [j|] eqn:Ej; [|lia].
  destruct (Hpar i it h j Eit Hh Ej) as (Hji & hj & Hhj & Hlt).
  pose proof (IH j hj ltac:(lia) Hhj). lia.
Qed.

(** In the outline built from headings of level 1 or more, the parent of
    an entry is an entry created before it, for a heading of a strictly
    smaller level: a heading is never put under a heading of its own
    level or deeper, also when levels are skipped or out of order.  The
    depth of an entry is at least 1 and at most the level of its heading. *)
Theorem builder_parents_are_shallower reader_pages err outline :
  Forall (fun h => 1 <= level h) (headings outline) ->
  let ks := kept (len reader_pages) (headings outline) in
  exists stk w,
    add_bookmarks_to_pdf reader_pages outline err = (Ok stk, w)
    /\ length (writer_outline (writer w)) = length ks
    /\ forall i it h,
         writer_outline (writer w) !! i = Some it -> ks !! i = Some h ->
         (forall j, item_parent it = Some j ->
            (j < i)%nat /\ exists hj, ks !! j = Some hj /\ level hj < level h)
         /\ 1 <= item_depth (length (writer_outline (writer w)))
                  (writer_outline (writer w)) i <= level h.
Proof.
  intros Hall ks. rewrite add_bookmarks_to_pdf_loop.
  destruct (built_state_run reader_pages err (headings outline) Hall)
    as (stk & w & Erun & _ & _ & Hent & _ & _ & Hpar).
  fold ks in Hent, Hpar.
  pose proof (Forall2_length _ _ _ Hent) as Hlen.
  exists stk, w. split; [done|]. split; [done|].
  intros i it h Hi Hh. split.
  - intros j Hj. by apply (Hpar i it h j).
  - apply (item_depth_bounded _ ks); [done|by apply kept_levels|done| |done].
    by apply lookup_lt_Some in Hi.
Qed.

Lemma builder_parents_are_shallower_witness :
  Forall (fun h => 1 <= level h) (headings Samples.skip_outline)
  /\ exists stk w,
       add_bookmarks_to_pdf Samples.two_pages Samples.skip_outline [] = (Ok stk, w)
       /\ length (writer_outline (writer w)) = 2%nat.
Proof.
  assert (Hall : Forall (fun h => 1 <= level h) (headings Samples.skip_outline)).
  { repeat constructor; vm_compute; discriminate. }
  split; [exact Hall|].
  destruct (builder_parents_are_shallower Samples.two_pages [] Samples.skip_outline Hall)
    as (stk & w & E & Hn & _).
  exists stk, w. split; [exact E|exact Hn].
Defined.

(** ** References and page targets, on any input *)

Lemma pad_loop_elements fuel lvl stk stk' :
  pad_loop fuel lvl stk = Ok stk' -> forall x, x ∈ stk' -> x ∈ stk.
Proof.
  revert stk. induction fuel as [|fuel IH]; intros stk; simpl.
  - destruct (len stk <? lvl); [done|]. by intros [= <-].
  - destruct (len stk <? lvl); [|by intros [= <-]].
    rewrite py_getitem_last. destruct (last stk) as [top|] eqn:Et; [|done].
    intros Hpad x Hx. apply (IH _ Hpad) in Hx.
    apply elem_of_app in Hx as [Hx|Hx]; [done|].
    apply list_elem_of_singleton in Hx as ->.
    rewrite last_lookup in Et. by apply list_elem_of_lookup_2 in Et.
Qed.

Lemma loop_body_safe h stk w r w' :
  loop_body h stk w = (r, w') ->
  refs_valid stk w -> outline_safe w ->
  outline_safe w'
  /\ page_count w' = page_count w
  /\ forall stk', r = Ok stk' -> refs_valid stk' w'.
Proof.
  intros Hbody Hrefs Hsafe. revert Hbody.
  unfold loop_body, bind, num_pages, lift, print_stderr, ret, add_outline_item.
  destruct (_ || _) eqn:Epage; cbn beta iota.
  { intros [= <- <-]. split; [done|]. split; [done|]. by intros ? [= <-]. }
  rewrite pop_loop_closed by (unfold pop_fuel; lia).
  destruct (level h <? 0).
  { intros [= <- <-]. split; [done|]. split; [done|]. done. }
  set (s1 := take (Z.to_nat (level h)) stk).
  assert (Hs1 : forall x, x ∈ s1 -> x ∈ stk).
  { intros x Hx. subst s1. apply elem_of_take in Hx as (k & Hk & _).
    by apply list_elem_of_lookup_2 in Hk. }
  destruct (get_parent s1) as [parent| |] eqn:Eparent;
    [|(intros [= <- <-]; split; [done|]; split; done)..].
  assert (Hparent : forall j, parent = Some j -> (j < next_ref w)%nat).
  { intros j ->. apply Hrefs, Hs1. unfold get_parent in Eparent.
    destruct (len s1 >? 0); [|done]. rewrite py_getitem_last in Eparent.
    destruct (last s1) as [top|] eqn:Et; [|done]. injection Eparent as ->.
    rewrite last_lookup in Et. by apply list_elem_of_lookup_2 in Et. }
  cbn [writer writer_pages writer_outline stderr].
  set (w1 := mkWorld _ _).
  assert (Hsafe1 : outline_safe w1).
  { intros i it Hi. subst w1. simpl in Hi.
    destruct (decide (i < length (writer_outline (writer w)))%nat) as [Hlt|Hge].
    - rewrite lookup_app_l in Hi by done. by apply Hsafe.
    - rewrite lookup_app_r in Hi by lia.
      destruct (i - length (writer_outline (writer w)))%nat eqn:Ei; [|done].
      simpl in Hi. injection Hi as <-. simpl. split.
      + unfold page_count. simpl. lia.
      + intros j Hj. specialize (Hparent j Hj). unfold next_ref in Hparent. lia. }
  assert (Hnext : next_ref w1 = S (next_ref w)).
  { unfold next_ref. subst w1. simpl. rewrite length_app. simpl. lia. }
  destruct (pad_loop _ _ s1) as [s2| |] eqn:Epad;
    [|(intros [= <- <-]; split; [done|]; split; done)..].
  assert (Hs2 : forall j, Some j ∈ s2 -> (j < next_ref w1)%nat).
  { intros j Hj. apply (pad_loop_elements _ _ _ _ Epad), Hs1, Hrefs in Hj. lia. }
  destruct (_ =? _); cbn beta iota.
  - intros [= <- <-]. split; [done|]. split; [done|].
    intros ? [= <-] j Hj. apply elem_of_app in Hj as [Hj|Hj]; [by apply Hs2|].
    apply list_elem_of_singleton in Hj. injection Hj as ->. fold (next_ref w). lia.
  - unfold py_setitem. destruct (py_index _ _) as [n| |];
      (intros [= <- <-]; split; [done|]; split; [done|]); [|done..].
    intros ? [= <-] j Hj. apply list_elem_of_lookup_1 in Hj as [k Hk].
    destruct (decide (k = n)) as [->|Hne].
    + assert (Hn : (n < length s2)%nat).
      { apply lookup_lt_Some in Hk. by rewrite length_insert in Hk. }
      rewrite list_lookup_insert_eq in Hk by done. injection Hk as <-.
      fold (next_ref w). lia.
    + rewrite list_lookup_insert_ne in Hk by done.
      apply Hs2. by apply list_elem_of_lookup_2 in Hk.
Qed.

Lemma for_headings_safe hs stk w r w' :
  for_headings hs stk w = (r, w') ->
  refs_valid stk w -> outline_safe w ->
  outline_safe w' /\ page_count w' = page_count w.
Proof.
  revert stk w. induction hs as [|h hs IH]; intros stk w; simpl.
  - by intros [= <- <-].
  - unfold bind. destruct (loop_body h stk w) as [r1 w1] eqn:E1.
    intros Hrun Hrefs Hsafe.
    destruct (loop_body_safe _ _ _ _ _ E1 Hrefs Hsafe) as (Hsafe1 & Hpc & Hrefs1).
    destruct r1 as [s1| |].
    + destruct (IH s1 w1 Hrun (Hrefs1 s1 eq_refl) Hsafe1) as [Hs Hp].
      split; [done|congruence].
    + by injection Hrun as <- <-.
    + by injection Hrun as <- <-.
Qed.

(** Whatever the outline holds (any levels, any pages) and whether the
    builder returns or raises, the outline it leaves in the writer is
    sound: every entry targets a page index that exists in the document,
    and the parent of an entry is an entry created before it, so that no
    entry refers to a missing parent or to itself. *)
Theorem builder_outline_sound reader_pages err outline :
  let w := snd (add_bookmarks_to_pdf reader_pages outline err) in
  forall i it,
    writer_outline (writer w) !! i = Some it ->
    0 <= item_page it < len reader_pages
    /\ forall j, item_parent it = Some j -> (j < i)%nat.
Proof.
  intros w i it Hi. subst w. rewrite add_bookmarks_to_pdf_loop in Hi.
  destruct (for_headings _ _ _) as [r w] eqn:E. simpl in Hi.
  destruct (for_headings_safe _ _ _ _ _ E) as [Hsafe Hpc].
  - intros j Hj. apply list_elem_of_singleton in Hj. done.
  - intros k x Hk. simpl in Hk. by rewrite lookup_nil in Hk.
  - destruct (Hsafe i it Hi) as [Hp Hpar]. split; [|done].
    rewrite Hpc in Hp. exact Hp.
Qed.

Lemma builder_outline_sound_witness :
  writer_outline (writer (snd (add_bookmarks_to_pdf Samples.two_pages
      Samples.skip_outline []))) !! 1%nat
    = Some (mkOutlineItem (title Samples.hB) 0 (Some 0%nat))
  /\ 0 <= 0 < len Samples.two_pages
  /\ forall j, Some 0%nat = Some j -> (j < 1)%nat.
Proof.
  assert (E : writer_outline (writer (snd (add_bookmarks_to_pdf Samples.two_pages
                Samples.skip_outline []))) !! 1%nat
              = Some (mkOutlineItem (title Samples.hB) 0 (Some 0%nat)))
    by reflexivity.
  split; [exact E|].
  exact (builder_outline_sound Samples.two_pages [] Samples.skip_outline 1%nat _ E).
Defined.

(** ** Headings that come back to a level *)

Lemma last_replicate_app {A} (l : list A) n x :
  (0 < n)%nat -> last (l ++ replicate n x) = Some x.
Proof.
  intros Hn. destruct n as [|n]; [lia|].
  by rewrite replicate_S_end, app_assoc, last_snoc.
Qed.

(** After an entry was attached at level [l1], the part of the stack a
    heading of level [l2 <= l1] reads has the top it had before. *)
Lemma last_take_after_attach (stk : list (option nat)) l1 l2 top x :
  (1 <= l2 <= l1)%nat ->
  last (take l1 stk) = Some top ->
  last (take l2 (take l1 stk ++ replicate (l1 - length (take l1 stk)) top ++ [x]))
  = last (take l2 stk).
Proof.
  intros Hl Ht. rewrite app_assoc. rewrite take_app_le.
  2:{ rewrite length_app, length_replicate, length_take. lia. }
  destruct (decide (l1 <= length stk)%nat) as [Hle|Hgt].
  - rewrite take_app_le by (rewrite length_take; lia).
    rewrite take_take. f_equal. f_equal. lia.
  - rewrite (take_ge stk l1) in * by lia.
    destruct (decide (l2 <= length stk)%nat) as [Hle2|Hgt2].
    + by rewrite take_app_le by done.
    + rewrite take_app, (take_ge stk l2) by lia. rewrite take_replicate.
      rewrite last_replicate_app by lia. done.
Qed.

(** When a heading [h2] comes after a heading [h1] of the same level or
    deeper, both on pages of the document, the entry of [h2] gets the
    parent it would have got had [h1] not been there: what is attached
    at a level does not change where later headings of that level or
    above go.  In particular two headings of the same level in a row,
    also two equal headings, give two entries under the same parent. *)
Theorem builder_returns_to_level reader_pages err pre h1 h2 stk w :
  for_headings pre [None] (start_world reader_pages err) = (Ok stk, w) ->
  1 <= page h1 <= len reader_pages ->
  1 <= page h2 <= len reader_pages ->
  1 <= level h2 <= level h1 ->
  exists p1 p2 stk1 stk2 stk2',
    let w1 := with_item w (mkOutlineItem (title h1) (page h1 - 1) p1) in
    loop_body h1 stk w = (Ok stk1, w1)
    /\ loop_body h2 stk1 w1
       = (Ok stk2, with_item w1 (mkOutlineItem (title h2) (page h2 - 1) p2))
    /\ loop_body h2 stk w
       = (Ok stk2', with_item w (mkOutlineItem (title h2) (page h2 - 1) p2))
    /\ (level h2 = level h1 -> p2 = p1).
Proof.
  intros Hpre Hp1 Hp2 Hl.
  assert (Hne : stk <> []) by (by apply (for_headings_nonempty _ _ _ _ _ Hpre)).
  destruct (for_headings_emits _ _ _ _ _ Hpre) as (ws0 & _ & Hpg).
  destruct (take_level_last stk (level h1) Hne) as [p1 Ht1]; [lia|].
  destruct (take_level_last stk (level h2) Hne) as [p2 Ht2]; [lia|].
  assert (Ht2' : last (take (Z.to_nat (level h2))
                         (take (Z.to_nat (level h1)) stk
                            ++ replicate (Z.to_nat (level h1)
                                  - length (take (Z.to_nat (level h1)) stk)) p1
                            ++ [Some (next_ref w)])) = Some p2).
  { rewrite last_take_after_attach; [done|lia|done]. }
  exists p1, p2. eexists _, _, _. cbv zeta.
  split; [apply loop_body_attach; [unfold page_count; by rewrite Hpg|lia|done]|].
  split; [apply loop_body_attach;
            [unfold page_count; rewrite with_item_pages; by rewrite Hpg|lia|done]|].
  split; [apply loop_body_attach; [unfold page_count; by rewrite Hpg|lia|done]|].
  intros Heq. rewrite Heq in Ht2. congruence.
Qed.

Lemma builder_returns_to_level_witness :
  exists p stk1 stk2,
    loop_body Samples.hA [None] (start_world Samples.two_pages [])
      = (Ok stk1,
         with_item (start_world Samples.two_pages [])
                   (mkOutlineItem (title Samples.hA) 0 p))
    /\ loop_body Samples.hA stk1
         (with_item (start_world Samples.two_pages [])
                    (mkOutlineItem (title Samples.hA) 0 p))
       = (Ok stk2,
          with_item
            (with_item (start_world Samples.two_pages [])
                       (mkOutlineItem (title Samples.hA) 0 p))
            (mkOutlineItem (title Samples.hA) 0 p)).
Proof.
  destruct (builder_returns_to_level Samples.two_pages [] []
              Samples.hA Samples.hA [None] (start_world Samples.two_pages [])
              eq_refl)
    as (p1 & p2 & stk1 & stk2 & stk2' & E1 & E2 & _ & Heq);
    [vm_compute; split; discriminate
    |vm_compute; split; discriminate
    |vm_compute; split; discriminate|].
  rewrite (Heq eq_refl) in E2.
  exists p1, stk1, stk2. split; [exact E1|exact E2].
Defined.

(** ** Levels below 1, which validation keeps out *)

(** A [Heading] whose level was set below 1 after its construction, on a
    page of the document: on a negative level the first loop empties the
    stack and pops once more, so that the builder raises [IndexError]
    before it adds anything; on level 0 the entry goes to the top of the
    outline and takes the place of the root on the stack, which is left
    with that one reference. *)
Theorem builder_level_below_one h stk w :
  1 <= page h <= page_count w ->
  (level h < 0 -> loop_body h stk w = (Raise IndexError, w))
  /\ (level h = 0 ->
      loop_body h stk w
        = (Ok [Some (next_ref w)],
           with_item w (mkOutlineItem (title h) (page h - 1) None))).
Proof.
  intros Hp.
  unfold loop_body, bind, num_pages, lift, print_stderr, ret, add_outline_item.
  unfold page_count in Hp.
  destruct (_ || _) eqn:E; [lia|]. clear E. cbn beta iota.
  rewrite pop_loop_closed by (unfold pop_fuel; lia). split.
  - intros Hl. destruct (level h <? 0) eqn:E; [done|lia].
  - intros Hl. rewrite Hl. reflexivity.
Qed.

Lemma builder_level_below_one_witness :
  (level Samples.h_negative < 0
   /\ loop_body Samples.h_negative [None] (start_world Samples.two_pages [])
      = (Raise IndexError, start_world Samples.two_pages []))
  /\ (level Samples.h_zero = 0
      /\ loop_body Samples.h_zero [None] (start_world Samples.two_pages [])
         = (Ok [Some 0%nat],
            with_item (start_world Samples.two_pages [])
                      (mkOutlineItem (title Samples.h_zero) 0 None))).
Proof.
  split.
  - assert (Hl : level Samples.h_negative < 0) by reflexivity.
    split; [exact Hl|].
    apply (builder_level_below_one Samples.h_negative [None]
             (start_world Samples.two_pages [])); [|exact Hl].
    vm_compute. split; discriminate.
  - assert (Hl : level Samples.h_zero = 0) by reflexivity.
    split; [exact Hl|].
    apply (builder_level_below_one Samples.h_zero [None]
             (start_world Samples.two_pages [])); [|exact Hl].
    vm_compute. split; discriminate.
Defined.

(** ** The pages and the document text *)

Lemma str_app_assoc (a b c : string) : ((a ++ b) ++ c)%string = (a ++ b ++ c)%string.
Proof. induction a as [|x a IH]; simpl; [done|by rewrite IH]. Qed.

Lemma str_app_nil_r (a : string) : (a ++ "")%string = a.
Proof. induction a as [|x a IH]; simpl; [done|by rewrite IH]. Qed.

Lemma str_length_app (a b : string) :
  String.length (a ++ b) = (String.length a + String.length b)%nat.
Proof. induction a as [|x a IH]; simpl; [done|by rewrite IH]. Qed.

Lemma enumerate_pages_lookup k reader_pages i :
  enumerate_pages k reader_pages !! i
  = (fun p => mkPageData (k + Z.of_nat i) p) <$> reader_pages !! i.
Proof.
  revert k i. induction reader_pages as [|p ps IH]; intros k i; simpl; [done|].
  destruct i as [|i]; simpl.
  - by rewrite Z.add_0_r.
  - rewrite IH. destruct (ps !! i); simpl; [|done]. do 2 f_equal. lia.
Qed.

Lemma enumerate_pages_length k reader_pages :
  length (enumerate_pages k reader_pages) = length reader_pages.
Proof.
  revert k. induction reader_pages as [|p ps IH]; intros k; simpl; [done|].
  by rewrite IH.
Qed.

(** [extract_text_with_pages] gives one entry per page of the document,
    in the order of the pages, numbered from 1 without a gap, each with
    the text of its page. *)
Theorem extract_text_with_pages_numbered reader_pages :
  length (extract_text_with_pages reader_pages) = length reader_pages
  /\ forall i,
       extract_text_with_pages reader_pages !! i
       = (fun p => mkPageData (Z.of_nat i + 1) p) <$> reader_pages !! i.
Proof.
  split; [apply enumerate_pages_length|].
  intros i. unfold extract_text_with_pages. rewrite enumerate_pages_lookup.
  destruct (reader_pages !! i); simpl; [|done]. do 2 f_equal. lia.
Qed.

Lemma concat_pages_blocks acc pages :
  concat_pages acc pages
  = (acc ++ String.concat "" (map page_block pages))%string.
Proof.
  revert acc. induction pages as [|pd pages IH]; intros acc.
  - simpl. by rewrite str_app_nil_r.
  - cbn [concat_pages map]. rewrite IH.
    assert (Hc : String.concat "" (page_block pd :: map page_block pages)
                 = (page_block pd ++ String.concat "" (map page_block pages))%string).
    { simpl. destruct (map page_block pages); [by rewrite str_app_nil_r|done]. }
    rewrite Hc. unfold page_block. by rewrite !str_app_assoc.
Qed.

Lemma enumerate_pages_blocks k reader_pages :
  map page_block (enumerate_pages k reader_pages)
  = imap (fun i p => page_block (mkPageData (k + Z.of_nat i) p)) reader_pages.
Proof.
  revert k. induction reader_pages as [|p ps IH]; intros k; simpl; [done|].
  rewrite Z.add_0_r. f_equal. rewrite IH. apply imap_ext.
  intros i x _. simpl. do 2 f_equal. lia.
Qed.

(** The document text made from the pages that were read is the pages'
    parts one after the other, in page order: for page number [i + 1] a
    line [--- PAGE i+1 ---] between two line feeds, then the text of the
    page; nothing before, between or after. *)
Theorem document_text_of_pages reader_pages :
  concat_pages EmptyString (extract_text_with_pages reader_pages)
  = String.concat ""
      (imap (fun i p => (LF ++ "--- PAGE " ++ str_of_int (Z.of_nat i + 1)
                           ++ " ---" ++ LF ++ p)%string)
            reader_pages).
Proof.
  rewrite concat_pages_blocks. simpl append.
  unfold extract_text_with_pages. rewrite enumerate_pages_blocks.
  f_equal. apply imap_ext. intros i p _. unfold page_block. simpl pd_page.
  simpl pd_text. replace (1 + Z.of_nat i) with (Z.of_nat i + 1) by lia.
  reflexivity.
Qed.

(** The text sent for classification is never longer than the budget of
    50000 characters plus the 25 characters of the truncation marker, and
    it has exactly that length whenever the document text was longer than
    the budget. *)
Theorem prepared_text_bounded pages :
  len_str (prepare_document_text pages) <= 50025
  /\ (max_chars < len_str (concat_pages EmptyString pages) ->
      len_str (prepare_document_text pages) = 50025).
Proof.
  unfold prepare_document_text, truncate_text.
  set (text := concat_pages EmptyString pages).
  assert (Hm : String.length truncation_marker = 25%nat) by reflexivity.
  destruct (len_str text >? max_chars) eqn:E.
  - assert (Hlen : len_str (str_take max_chars text ++ truncation_marker) = 50025).
    { unfold len_str, str_take in *. rewrite str_length_app, Hm.
      rewrite substring_0_length; unfold max_chars in *; lia. }
    split; [lia|done].
  - unfold max_chars in *. split; lia.
Qed.

Lemma prepared_text_bounded_witness :
  max_chars < len_str (concat_pages EmptyString Samples.long_pages)
  /\ len_str (prepare_document_text Samples.long_pages) = 50025.
Proof.
  assert (Hlong : max_chars < len_str (concat_pages EmptyString Samples.long_pages)).
  { vm_compute. reflexivity. }
  split; [exact Hlong|].
  exact (proj2 (prepared_text_bounded Samples.long_pages) Hlong).
Defined.

(** ** The analysis and the whole run *)

Lemma DocumentOutline_validate_ok data outline :
  DocumentOutline_validate data = Ok outline ->
  headings outline = data /\ Forall (fun h => Heading_validate h = true) data.
Proof.
  unfold DocumentOutline_validate.
  destruct (forallb Heading_validate data) eqn:E; [|done].
  intros [= <-]. split; [done|].
  apply Forall_forall. intros h Hh. apply list_elem_of_In in Hh.
  rewrite forallb_forall in E. by apply E.
Qed.

Lemma analyze_ok_inv completion pages outline :
  analyze_pdf_with_llm completion pages = Ok outline ->
  completion (prepare_document_text pages) = Ok (headings outline)
  /\ Forall (fun h => Heading_validate h = true) (headings outline).
Proof.
  unfold analyze_pdf_with_llm, analyze_validate.
  destruct (completion _) as [data| |]; [|done..].
  destruct (DocumentOutline_validate data) as [o| |] eqn:E; [|done..].
  intros [= <-]. apply DocumentOutline_validate_ok in E as [-> Hv]. done.
Qed.

Lemma validated_levels hs :
  Forall (fun h => Heading_validate h = true) hs ->
  Forall (fun h => 1 <= level h) hs.
Proof.
  intros Hv. eapply Forall_impl; [exact Hv|].
  intros h Hh. apply Heading_validate_iff in Hh. simpl. lia.
Qed.

(** [analyze_pdf_with_llm] returns an outline only when the model answered
    and every heading of the answer satisfies the constraints of
    [Heading]; the outline then holds the headings of the answer, all of
    them, in their order.  In every other case where it ends it raises
    [RuntimeError], never another exception: either the call or the
    parsing raised, or one heading of the answer is not valid. *)
Theorem analyze_pdf_with_llm_outcome completion pages :
  match analyze_pdf_with_llm completion pages with
  | Ok outline =>
      completion (prepare_document_text pages) = Ok (headings outline)
      /\ Forall (fun h => 1 <= level h <= 6 /\ 1 <= page h) (headings outline)
  | Raise e =>
      e = RuntimeError
      /\ ((exists e', completion (prepare_document_text pages) = Raise e')
          \/ exists data h,
               completion (prepare_document_text pages) = Ok data
               /\ h ∈ data /\ Heading_validate h = false)
  | Timeout => completion (prepare_document_text pages) = Timeout
  end.
Proof.
  destruct (analyze_pdf_with_llm completion pages) as [outline|e|] eqn:E.
  - apply analyze_ok_inv in E as [Hc Hv]. split; [done|].
    eapply Forall_impl; [exact Hv|].
    intros h Hh. by apply Heading_validate_iff.
  - unfold analyze_pdf_with_llm, analyze_validate in E.
    destruct (completion _) as [data|e'|]; [| |done].
    + unfold DocumentOutline_validate in E.
      destruct (forallb Heading_validate data) eqn:Ef; [done|].
      injection E as <-. split; [done|]. right.
      assert (Hex : Exists (fun h => Heading_validate h = false) data).
      { clear -Ef. induction data as [|h data IH]; simpl in Ef; [done|].
        destruct (Heading_validate h) eqn:Eh; [right; by apply IH|by left]. }
      apply Exists_exists in Hex as (h & Hh & Hv). by exists data, h.
    + injection E as <-. split; [done|]. left. by exists e'.
  - unfold analyze_pdf_with_llm, analyze_validate in E.
    destruct (completion _) as [data|e'|]; [|done|done].
    unfold DocumentOutline_validate in E. by destruct (forallb _ _).
Qed.


Lemma kept_skipped_length n hs :
  (length (kept n hs) + length (skipped n hs))%nat = length hs.
Proof.
  unfold kept, skipped. induction hs as [|h hs IH]; simpl; [done|].
  destruct (in_range n h); simpl; lia.
Qed.

Section ProgramFacts.
Variables icon_reading icon_analyzing icon_adding icon_saved : string.
Variables icon_outline icon_error marker : string.
Variables path_parent path_stem : string -> string.
Variable path_join : string -> string -> string.
Variable exn_text : exn -> string.

Local Notation "'process_pdf''" :=
  (process_pdf icon_reading icon_analyzing icon_adding icon_saved
     path_parent path_stem path_join) (only parsing).
Local Notation "'cli''" :=
  (cli icon_reading icon_analyzing icon_adding icon_saved icon_outline
     icon_error marker path_parent path_stem path_join exn_text) (only parsing).

(** The output path [process_pdf] writes to. *)
Local Notation "'out_path' input_path output_path" :=
  (match output_path with
   | None => default_output_path path_parent path_stem path_join input_path
   | Some p => p
   end) (at level 10, input_path at level 9, output_path at level 9, only parsing).

(** [process_pdf] once the analysis has returned and the loop of the
    builder has come to its end. *)
Lemma process_pdf_built model completion reader_pages input_path output_path
    s outline stk w :
  analyze_pdf_with_llm completion (extract_text_with_pages reader_pages)
    = Ok outline ->
  for_headings (headings outline) [None]
    (start_world reader_pages (session_stderr s)) = (Ok stk, w) ->
  process_pdf' model completion reader_pages input_path output_path s
  = (Ok outline,
     mkSession
       (stdout s
          ++ [(icon_reading ++ " Reading PDF: " ++ input_path)%string;
              ("   Found "
                 ++ str_of_int (len (extract_text_with_pages reader_pages))
                 ++ " pages")%string;
              (LF ++ icon_analyzing ++ " Analyzing with " ++ model ++ "...")%string;
              ("   Detected " ++ str_of_int (len (headings outline))
                 ++ " headings")%string;
              (LF ++ icon_adding ++ " Adding bookmarks to PDF...")%string;
              ("   " ++ icon_saved ++ " Saved to: "
                 ++ out_path input_path output_path)%string])
       (stderr w)
       (written s ++ [(out_path input_path output_path, writer w)])).
Proof.
  intros Ha Erun. unfold process_pdf. rewrite Ha.
  rewrite add_bookmarks_to_pdf_loop. simpl session_stderr. rewrite Erun.
  unfold print. simpl. by rewrite <- !app_assoc.
Qed.


(** When the analysis returns an outline, [process_pdf] returns that
    outline: the builder cannot raise on validated headings.  Exactly one
    document is written, at the output path asked for (or the default
    one); it has the pages of the input and one outline entry per heading
    that is on a page of the document, and every other heading has its
    warning on the error stream: no heading is lost without a notice,
    although the line on the number of detected headings counts them
    all. *)
Theorem process_pdf_analysis_succeeds model completion reader_pages
    input_path output_path s outline :
  analyze_pdf_with_llm completion (extract_text_with_pages reader_pages)
    = Ok outline ->
  let n := len reader_pages in
  exists s' wr,
    process_pdf' model completion reader_pages input_path output_path s
      = (Ok outline, s')
    /\ written s' = written s ++ [(out_path input_path output_path, wr)]
    /\ writer_pages wr = reader_pages
    /\ map item_title (writer_outline wr) = map title (kept n (headings outline))
    /\ session_stderr s'
       = session_stderr s ++ map skip_warning (skipped n (headings outline))
    /\ (length (writer_outline wr) + length (skipped n (headings outline)))%nat
       = length (headings outline)
    /\ stdout s' !! (length (stdout s) + 3)%nat
       = Some ("   Detected " ++ str_of_int (len (headings outline))
                 ++ " headings")%string.
Proof.
  intros Ha n.
  destruct (analyze_ok_inv _ _ _ Ha) as [_ Hv]. apply validated_levels in Hv.
  destruct (built_state_run reader_pages (session_stderr s) (headings outline) Hv)
    as (stk & w & Erun & Hpg & Herr & Hent & _).
  rewrite (process_pdf_built _ _ _ _ _ _ _ _ _ Ha Erun).
  eexists _, (writer w). split; [reflexivity|].
  destruct (entry_of_titles _ _ Hent) as [Ht _].
  pose proof (Forall2_length _ _ _ Hent) as Hlen.
  pose proof (kept_skipped_length n (headings outline)) as Hks.
  simpl. split; [done|]. split; [done|]. split; [done|]. split; [done|].
  split; [fold n in Hlen; lia|].
  rewrite lookup_app_r by lia.
  replace (length (stdout s) + 3 - length (stdout s))%nat with 3%nat by lia.
  reflexivity.
Qed.

(** [--show-outline] prints one line per heading of the outline, in
    order, after what was printed before, and touches nothing else. *)
Lemma print_outline_lines hs s :
  print_outline marker hs s
  = mkSession (stdout s ++ map (outline_line marker) hs)
              (session_stderr s) (written s).
Proof.
  revert s. induction hs as [|h hs IH]; intros s; simpl.
  - rewrite app_nil_r. by destruct s.
  - rewrite IH. simpl. by rewrite <- app_assoc.
Qed.


End ProgramFacts.

Section RunWitnesses.
Local Open Scope string_scope.


Lemma process_pdf_analysis_succeeds_witness :
  let completion := fun _ : string => Ok (headings Samples.skip_outline) in
  analyze_pdf_with_llm completion (extract_text_with_pages Samples.two_pages)
    = Ok Samples.skip_outline
  /\ exists s' wr,
       process_pdf "" "" "" "" (fun p => p) (fun p => p) (fun _ name => name)
         "gpt-4o-mini" completion Samples.two_pages "in.pdf" (Some "out.pdf")
         (mkSession [] [] [])
         = (Ok Samples.skip_outline, s')
       /\ written s' = [("out.pdf", wr)]
       /\ writer_pages wr = Samples.two_pages
       /\ map item_title (writer_outline wr) = map title [Samples.hA; Samples.hB]
       /\ session_stderr s' = map skip_warning [Samples.hC].
Proof.
  intros completion.
  assert (Ha : analyze_pdf_with_llm completion
                 (extract_text_with_pages Samples.two_pages) = Ok Samples.skip_outline)
    by reflexivity.
  split; [exact Ha|].
  destruct (process_pdf_analysis_succeeds "" "" "" "" (fun p => p) (fun p => p)
              (fun _ name => name) "gpt-4o-mini" completion Samples.two_pages
              "in.pdf" (Some "out.pdf") (mkSession [] [] []) Samples.skip_outline Ha)
    as (s' & wr & E & Hw & Hp & Ht & He & _).
  exists s', wr. repeat (split; [assumption|]). exact He.
Defined.


End RunWitnesses.

(** ** The listing of the outline *)

Lemma str_repeat_length s n :
  0 <= n -> len_str (str_repeat s n) = n * len_str s.
Proof.
  intros Hn. unfold str_repeat, len_str.
  rewrite <- (Z2Nat.id n) at 2 by done.
  induction (Z.to_nat n) as [|k IH]; simpl; [lia|].
  rewrite str_length_app. lia.
Qed.

Lemma outline_line_length marker h :
  1 <= level h ->
  len_str (outline_line marker h)
  = 2 * (level h - 1) + level h * len_str marker
    + len_str (title h) + len_str (str_of_int (page h)) + 6.
Proof.
  intros Hl. unfold outline_line. cbv zeta.
  pose proof (str_repeat_length "  " (level h - 1) ltac:(lia)) as H1.
  pose proof (str_repeat_length marker (level h) ltac:(lia)) as H2.
  unfold len_str in *. rewrite !str_length_app. simpl String.length in *. lia.
Qed.

(** With [--show-outline], after a run that succeeded, [cli] prints a
    title, a rule of 60 equal signs and then one line for every heading
    of the outline, in order, also for the headings that got no bookmark
    because of their page.  The line of a heading has two spaces of
    indentation per level below the first, then as many marks as the
    level, the title and the page: its length follows from the level. *)
Theorem cli_show_outline_listing
    icon_reading icon_analyzing icon_adding icon_saved icon_outline icon_error
    marker path_parent path_stem path_join exn_text
    input_pdf output model completion reader_pages s outline :
  analyze_pdf_with_llm completion (extract_text_with_pages reader_pages)
    = Ok outline ->
  exists s1 s',
    process_pdf icon_reading icon_analyzing icon_adding icon_saved
      path_parent path_stem path_join model completion reader_pages
      input_pdf output s = (Ok outline, s1)
    /\ cli icon_reading icon_analyzing icon_adding icon_saved icon_outline
         icon_error marker path_parent path_stem path_join exn_text
         true input_pdf output model true completion reader_pages s
       = (Ok 0, s')
    /\ stdout s'
       = stdout s1
           ++ [(LF ++ icon_outline ++ " Detected Outline:")%string;
               str_repeat "=" 60]
           ++ map (outline_line marker) (headings outline)
    /\ len_str (str_repeat "=" 60) = 60
    /\ session_stderr s' = session_stderr s1
    /\ written s' = written s1
    /\ Forall (fun h =>
                 len_str (outline_line marker h)
                 = 2 * (level h - 1) + level h * len_str marker
                   + len_str (title h) + len_str (str_of_int (page h)) + 6)
              (headings outline).
Proof.
  intros Ha.
  destruct (analyze_ok_inv _ _ _ Ha) as [_ Hv].
  pose proof (validated_levels _ Hv) as Hlv.
  destruct (built_state_run reader_pages (session_stderr s) (headings outline) Hlv)
    as (stk & w & Erun & _).
  pose proof (process_pdf_built icon_reading icon_analyzing icon_adding
                icon_saved path_parent path_stem path_join model completion
                reader_pages input_pdf output s outline stk w Ha Erun) as Ep.
  eexists _, _. split; [exact Ep|].
  unfold cli. simpl negb. cbv iota. rewrite Ep. rewrite print_outline_lines.
  split; [reflexivity|]. simpl.
  split; [by rewrite <- !app_assoc|]. split; [reflexivity|].
  split; [done|]. split; [done|].
  eapply Forall_impl; [exact Hlv|]. intros h Hh. by apply outline_line_length.
Qed.

Lemma cli_show_outline_listing_witness :
  let completion := fun _ : string => Ok (headings Samples.skip_outline) in
  analyze_pdf_with_llm completion (extract_text_with_pages Samples.two_pages)
    = Ok Samples.skip_outline
  /\ exists s1 s',
       cli EmptyString EmptyString EmptyString EmptyString EmptyString
         EmptyString EmptyString (fun p => p) (fun p => p) (fun _ name => name)
         (fun _ => EmptyString) true EmptyString None EmptyString true
         completion Samples.two_pages (mkSession [] [] [])
       = (Ok 0, s')
       /\ stdout s'
          = stdout s1
              ++ [(LF ++ EmptyString ++ " Detected Outline:")%string;
                  str_repeat "=" 60]
              ++ map (outline_line EmptyString) (headings Samples.skip_outline).
Proof.
  intros completion.
  assert (Ha : analyze_pdf_with_llm completion
                 (extract_text_with_pages Samples.two_pages) = Ok Samples.skip_outline)
    by reflexivity.
  split; [exact Ha|].
  destruct (cli_show_outline_listing EmptyString EmptyString EmptyString
              EmptyString EmptyString EmptyString EmptyString
              (fun p => p) (fun p => p) (fun _ name => name)
              (fun _ => EmptyString) EmptyString None EmptyString completion
              Samples.two_pages (mkSession [] [] []) Samples.skip_outline Ha)
    as (s1 & s' & _ & E & Hout & _).
  exists s1, s'. split; [exact E|exact Hout].
Defined.

(** ** The outline only grows *)

Lemma loop_body_appends h stk w r w' :
  loop_body h stk w = (r, w') ->
  exists items ws,
    writer_outline (writer w') = writer_outline (writer w) ++ items
    /\ stderr w' = stderr w ++ ws.
Proof.
  unfold loop_body, bind, num_pages, lift, print_stderr, ret, add_outline_item.
  destruct (_ || _); cbn beta iota.
  { intros [= <- <-]. exists [], [skip_warning h]. simpl. by rewrite app_nil_r. }
  destruct (pop_loop _ _ _) as [s1| |];
    [|(intros [= <- <-]; exists [], []; by rewrite !app_nil_r)..].
  destruct (get_parent s1) as [parent| |];
    [|(intros [= <- <-]; exists [], []; by rewrite !app_nil_r)..].
  cbn [writer writer_pages writer_outline stderr].
  destruct (pad_loop _ _ _) as [s2| |];
    [|(intros [= <- <-]; eexists [_], []; simpl; by rewrite !app_nil_r)..].
  destruct (_ =? _); cbn beta iota;
    intros [= <- <-]; eexists [_], []; simpl; by rewrite !app_nil_r.
Qed.

Lemma for_headings_appends hs stk w r w' :
  for_headings hs stk w = (r, w') ->
  exists items ws,
    writer_outline (writer w') = writer_outline (writer w) ++ items
    /\ stderr w' = stderr w ++ ws.
Proof.
  revert stk w. induction hs as [|h hs IH]; intros stk w; simpl.
  - intros [= <- <-]. exists [], []. by rewrite !app_nil_r.
  - unfold bind. destruct (loop_body h stk w) as [r1 w1] eqn:E1.
    destruct (loop_body_appends _ _ _ _ _ E1) as (i1 & e1 & Ho1 & He1).
    destruct r1 as [s1| |].
    + intros Hrun. destruct (IH _ _ Hrun) as (i2 & e2 & Ho2 & He2).
      exists (i1 ++ i2), (e1 ++ e2). rewrite Ho2, He2, Ho1, He1.
      by rewrite !app_assoc.
    + intros [= <- <-]. by exists i1, e1.
    + intros [= <- <-]. by exists i1, e1.
Qed.

(** The builder works from the front of the outline: what it has built
    and printed for the first headings of an outline is not touched by
    the headings that follow.  The entries and the warnings of a run on
    [pre ++ post] start with those of the run on [pre]; when the run on
    [pre] raises, the longer run raises the same exception. *)
Theorem builder_extends_outline reader_pages err pre post :
  let run := fun hs => add_bookmarks_to_pdf reader_pages (mkDocumentOutline hs) err in
  (exists items ws,
     writer_outline (writer (snd (run (pre ++ post))))
       = writer_outline (writer (snd (run pre))) ++ items
     /\ stderr (snd (run (pre ++ post))) = stderr (snd (run pre)) ++ ws)
  /\ forall e, fst (run pre) = Raise e -> run (pre ++ post) = run pre.
Proof.
  intros run. subst run. cbv beta. rewrite !add_bookmarks_to_pdf_loop.
  simpl headings. rewrite for_headings_app. unfold bind.
  destruct (for_headings pre [None] (start_world reader_pages err))
    as [[stk|e|] w] eqn:Epre; simpl.
  - split; [|done].
    destruct (for_headings post stk w) as [r' w'] eqn:Epost.
    by apply for_headings_appends in Epost.
  - split; [|done]. exists [], []. by rewrite !app_nil_r.
  - split; [|done]. exists [], []. by rewrite !app_nil_r.
Qed.

Lemma builder_extends_outline_witness :
  fst (add_bookmarks_to_pdf Samples.two_pages
         (mkDocumentOutline [Samples.h_negative]) [])
    = Raise IndexError
  /\ add_bookmarks_to_pdf Samples.two_pages
       (mkDocumentOutline ([Samples.h_negative] ++ [Samples.hA])) []
     = add_bookmarks_to_pdf Samples.two_pages
         (mkDocumentOutline [Samples.h_negative]) [].
Proof.
  assert (E : fst (add_bookmarks_to_pdf Samples.two_pages
                     (mkDocumentOutline [Samples.h_negative]) [])
              = Raise IndexError) by reflexivity.
  split; [exact E|].
  exact (proj2 (builder_extends_outline Samples.two_pages []
                  [Samples.h_negative] [Samples.hA]) IndexError E).
Defined.
